(** * A verified model of the calculator component

  The development embeds the state machine of [src/components/Calculator.js]
  (the [Calculator] React function component) and the JavaScript built-ins it
  calls: [Number(string)], [String(number)], [Number.prototype.toFixed],
  [String.prototype.slice], [startsWith], [replace] with the regular
  expression [/^-?\d*\.?/] and the IEEE 754 binary64 arithmetic of the
  [OPERATIONS] table.

  Numbers are [spec_float]s at precision 53 and maximal exponent 1024, with
  the correctly rounded operations of the Standard Library.  Strings are
  [string]s whose characters stand for code units below 256, which covers
  every character the component can put on its display. *)

From Stdlib Require Import ZArith NArith List Bool Ascii String Lia.
From Stdlib Require Import Decimal DecimalString DecimalPos.
From Stdlib Require Import SpecFloat.
Import ListNotations.

#[local] Open Scope string_scope.
#[local] Open Scope Z_scope.

(** ** Strings *)

Module JSString.

(** [s.startsWith(c)] for a one character pattern. *)
Definition startsWith (c : ascii) (s : string) : bool :=
  match s with
  | String a _ => Ascii.eqb a c
  | EmptyString => false
  end.

(** [s.slice(1)]. *)
Definition slice1 (s : string) : string :=
  match s with
  | String _ r => r
  | EmptyString => EmptyString
  end.

(** [s.slice(0, -1)]: everything but the last code unit. *)
Fixpoint sliceInit (s : string) : string :=
  match s with
  | EmptyString => EmptyString
  | String a r =>
      match r with
      | EmptyString => EmptyString
      | String _ _ => String a (sliceInit r)
      end
  end.

(** Number of occurrences of a character. *)
Fixpoint count (c : ascii) (s : string) : nat :=
  match s with
  | EmptyString => 0%nat
  | String a r => ((if Ascii.eqb a c then 1 else 0) + count c r)%nat
  end.

(** [/\./.test(s)]. *)
Definition hasDot (s : string) : bool :=
  negb (Nat.eqb (count "." s) 0).

Definition isDigit (c : ascii) : bool :=
  let n := N_of_ascii c in (48 <=? n)%N && (n <=? 57)%N.

(** The longest prefix of decimal digits, and the rest. *)
Fixpoint spanDigits (s : string) : string * string :=
  match s with
  | String a r =>
      if isDigit a
      then let '(d, t) := spanDigits r in (String a d, t)
      else (EmptyString, s)
  | EmptyString => (EmptyString, EmptyString)
  end.

(** [s.replace(/^-?\d*\.?/, '')]: the pattern is anchored and each of its
    three parts is optional and greedy, so the match is the optional minus
    sign, then all the digits that follow, then an optional dot. *)
Definition stripIntegerPart (s : string) : string :=
  let s1 := if startsWith "-" s then slice1 s else s in
  let s2 := snd (spanDigits s1) in
  if startsWith "." s2 then slice1 s2 else s2.

Fixpoint allDigits (s : string) : bool :=
  match s with
  | String a r => isDigit a && allDigits r
  | EmptyString => true
  end.

Fixpoint repeat (c : ascii) (n : nat) : string :=
  match n with
  | O => EmptyString
  | S k => String c (repeat c k)
  end.

Fixpoint take (n : nat) (s : string) : string :=
  match n, s with
  | S k, String a r => String a (take k r)
  | _, _ => EmptyString
  end.

Fixpoint drop (n : nat) (s : string) : string :=
  match n, s with
  | S k, String _ r => drop k r
  | _, _ => s
  end.

End JSString.

(** ** Numbers *)

Module JSNumber.
Import JSString.

(** The Number type: IEEE 754 binary64. *)
Definition number : Type := spec_float.

Definition prec : Z := 53.
Definition emax : Z := 1024.

Definition NaN : number := S754_nan.
Definition Infinity : number := S754_infinity false.
Definition zero : number := S754_zero false.

Definition add : number -> number -> number := SFadd prec emax.
Definition sub : number -> number -> number := SFsub prec emax.
Definition mul : number -> number -> number := SFmul prec emax.
Definition div : number -> number -> number := SFdiv prec emax.

(** [isFinite(x)]. *)
Definition isFinite (x : number) : bool :=
  match x with
  | S754_zero _ | S754_finite _ _ _ => true
  | S754_infinity _ | S754_nan => false
  end.

(** [x === 0.0]: both zeros compare equal to zero, NaN to nothing. *)
Definition isZero (x : number) : bool :=
  match x with
  | S754_zero _ => true
  | _ => false
  end.

(** ToBoolean on a number: [+0], [-0] and [NaN] are falsy. *)
Definition truthy (x : number) : bool :=
  match x with
  | S754_zero _ | S754_nan => false
  | _ => true
  end.

(** [x || 0] for a number [x]. *)
Definition orZero (x : number) : number :=
  if truthy x then x else zero.

(** [v || 0] for [v] a number or [null]. *)
Definition orZeroNullable (v : option number) : number :=
  match v with
  | Some x => orZero x
  | None => zero
  end.

(** *** From decimal text to the nearest number *)

(** The number nearest to [m * 10 ^ e] (ties to even), with sign [neg]. *)
Definition ofDecimal (neg : bool) (m : Z) (e : Z) : number :=
  match m with
  | Zpos p =>
      if 0 <=? e
      then binary_round prec emax neg (p * Z.to_pos (10 ^ e)) 0
      else
        let '(q, e', l) := SFdiv_core_binary prec emax m 0 (10 ^ (- e)) 0 in
        binary_round_aux prec emax neg q e' l
  | _ => S754_zero neg
  end.

Definition digitValue (c : ascii) : Z := Z.of_N (N_of_ascii c) - 48.

(** Value of a string of digits in radix [b]; letters count from ten. *)
Definition radixDigit (c : ascii) : option Z :=
  let n := Z.of_N (N_of_ascii c) in
  if (48 <=? n) && (n <=? 57) then Some (n - 48)
  else if (97 <=? n) && (n <=? 102) then Some (n - 87)
  else if (65 <=? n) && (n <=? 70) then Some (n - 55)
  else None.

Fixpoint radixValue (b : Z) (acc : Z) (s : string) : option Z :=
  match s with
  | EmptyString => Some acc
  | String c r =>
      match radixDigit c with
      | Some d => if d <? b then radixValue b (b * acc + d) r else None
      | None => None
      end
  end.

Fixpoint decimalValue (acc : Z) (s : string) : Z :=
  match s with
  | EmptyString => acc
  | String c r => decimalValue (10 * acc + digitValue c) r
  end.

(** StrWhiteSpaceChar, for code units below 256. *)
Definition isWhite (c : ascii) : bool :=
  let n := N_of_ascii c in
  ((9 <=? n)%N && (n <=? 13)%N) || (n =? 32)%N || (n =? 160)%N.

Fixpoint trimStart (s : string) : string :=
  match s with
  | String c r => if isWhite c then trimStart r else s
  | EmptyString => EmptyString
  end.

Fixpoint trimEnd (s : string) : string :=
  match s with
  | String c r =>
      match trimEnd r with
      | EmptyString => if isWhite c then EmptyString else String c EmptyString
      | t => String c t
      end
  | EmptyString => EmptyString
  end.

(** ExponentPart, or nothing, up to the end of the text. *)
Definition parseExponent (s : string) : option Z :=
  match s with
  | EmptyString => Some 0
  | String c r =>
      if Ascii.eqb c "e" || Ascii.eqb c "E" then
        let neg := startsWith "-" r in
        let r' := if neg || startsWith "+" r then slice1 r else r in
        match spanDigits r' with
        | (String d ds, EmptyString) =>
            let v := decimalValue 0 (String d ds) in
            Some (if neg then - v else v)
        | _ => None
        end
      else None
  end.

(** StrUnsignedDecimalLiteral other than [Infinity]: the mantissa and the
    decimal exponent of its mathematical value. *)
Definition parseUnsigned (s : string) : option (Z * Z) :=
  let '(ip, r1) := spanDigits s in
  if startsWith "." r1 then
    let '(fp, r2) := spanDigits (slice1 r1) in
    match ip ++ fp with
    | EmptyString => None
    | ds =>
        match parseExponent r2 with
        | Some e => Some (decimalValue 0 ds, e - Z.of_nat (String.length fp))
        | None => None
        end
    end
  else
    match ip with
    | EmptyString => None
    | _ =>
        match parseExponent r1 with
        | Some e => Some (decimalValue 0 ip, e)
        | None => None
        end
    end.

(** StrDecimalLiteral. *)
Definition parseDecimal (s : string) : number :=
  let neg := startsWith "-" s in
  let u := if neg || startsWith "+" s then slice1 s else s in
  if String.eqb u "Infinity" then S754_infinity neg
  else
    match parseUnsigned u with
    | Some (m, e) => ofDecimal neg m e
    | None => NaN
    end.

(** NonDecimalIntegerLiteral: [0x], [0o] and [0b] prefixes, no sign. *)
Definition parseNonDecimal (s : string) : option number :=
  match s with
  | String "0" (String p (String d ds)) =>
      let radix :=
        if Ascii.eqb p "x" || Ascii.eqb p "X" then Some 16
        else if Ascii.eqb p "o" || Ascii.eqb p "O" then Some 8
        else if Ascii.eqb p "b" || Ascii.eqb p "B" then Some 2
        else None in
      match radix with
      | Some b =>
          match radixValue b 0 (String d ds) with
          | Some v => Some (ofDecimal false v 0)
          | None => Some NaN
          end
      | None => None
      end
  | _ => None
  end.

(** [Number(s)] for a string [s] (StringToNumber). *)
Definition ofString (s : string) : number :=
  match trimEnd (trimStart s) with
  | EmptyString => zero
  | t =>
      match parseNonDecimal t with
      | Some x => x
      | None => parseDecimal t
      end
  end.

(** *** From a number to decimal text *)

(** Decimal digits of a natural number. *)
Definition digits (n : Z) : string :=
  NilEmpty.string_of_uint (N.to_uint (Z.to_N n)).

(** The exact value of the finite number with mantissa [m] and binary
    exponent [e] is [numerator m e / denominator e]. *)
Definition numerator (m : positive) (e : Z) : Z :=
  if 0 <=? e then Zpos m * 2 ^ e else Zpos m.

Definition denominator (e : Z) : Z :=
  if 0 <=? e then 1 else 2 ^ (- e).

(** The least [j] from [j] on with [q <= p * 10 ^ j]. *)
Fixpoint firstScale (fuel : nat) (p q j : Z) : Z :=
  match fuel with
  | O => j
  | S k => if q <=? p * 10 ^ j then j else firstScale k p q (j + 1)
  end.

(** The integer [n] with [10 ^ (n - 1) <= p / q < 10 ^ n]. *)
Definition decimalExponent (p q : Z) : Z :=
  if q <=? p then Z.of_nat (String.length (digits (p / q)))
  else 1 - firstScale 400 p q 1.

(** The [k]-digit decimals next to [p / q] at scale [10 ^ (n - k)]: the one
    below, its remainder, and the denominator the remainder is over. *)
Definition scaled (p q n k : Z) : Z * Z * Z :=
  let num := if n <=? k then p * 10 ^ (k - n) else p in
  let den := if n <=? k then q else q * 10 ^ (n - k) in
  (num / den, num mod den, den).

(** A decimal [s * 10 ^ (n - k)] with [k] digits that reads back as [x], the
    nearest to [x] when both neighbours do, the even one on a tie. *)
Definition candidate (x : number) (p q n k : Z) : option (Z * Z) :=
  let '(lo, r, den) := scaled p q n k in
  let hi := lo + 1 in
  let okLo := SFeqb (ofDecimal false lo (n - k)) x in
  let okHi := SFeqb (ofDecimal false hi (n - k)) x in
  let up := if hi =? 10 ^ k then (10 ^ (k - 1), n + 1) else (hi, n) in
  if okLo && okHi then
    match 2 * r ?= den with
    | Lt => Some (lo, n)
    | Gt => Some up
    | Eq => if Z.even lo then Some (lo, n) else Some up
    end
  else if okLo then Some (lo, n)
  else if okHi then Some up
  else None.

(** The shortest such decimal, trying [k] digits and then more. *)
Fixpoint shortest (fuel : nat) (x : number) (p q n k : Z) : Z * Z :=
  match fuel with
  | O => (fst (fst (scaled p q n k)), n)
  | S f =>
      match candidate x p q n k with
      | Some sn => sn
      | None => shortest f x p q n (k + 1)
      end
  end.

(** Steps 6 to 10 of Number::toString, from the digits [ds] of [s] and the
    position [n] of the decimal point. *)
Definition layout (ds : string) (n : Z) : string :=
  let k := Z.of_nat (String.length ds) in
  if (k <=? n) && (n <=? 21) then
    ds ++ repeat "0" (Z.to_nat (n - k))
  else if (0 <? n) && (n <=? 21) then
    take (Z.to_nat n) ds ++ "." ++ drop (Z.to_nat n) ds
  else if (-6 <? n) && (n <=? 0) then
    "0." ++ repeat "0" (Z.to_nat (- n)) ++ ds
  else
    let e := n - 1 in
    let sign := if 0 <=? e then "+" else "-" in
    if k =? 1 then ds ++ "e" ++ sign ++ digits (Z.abs e)
    else take 1 ds ++ "." ++ drop 1 ds ++ "e" ++ sign ++ digits (Z.abs e).

(** Number::toString of the positive finite number [m * 2 ^ e]. *)
Definition positiveToString (m : positive) (e : Z) : string :=
  let p := numerator m e in
  let q := denominator e in
  let '(s, n) :=
    shortest 17 (S754_finite false m e) p q (decimalExponent p q) 1 in
  layout (digits s) n.

(** [String(x)] for a number [x] (Number::toString, radix ten). *)
Definition toString (x : number) : string :=
  match x with
  | S754_nan => "NaN"
  | S754_zero _ => "0"
  | S754_infinity s => (if s then "-" else "") ++ "Infinity"
  | S754_finite s m e => (if s then "-" else "") ++ positiveToString m e
  end.

(** The digits of [x.toFixed(f)] for [0 <= p / q < 10 ^ 21]: the integer
    nearest to [p / q * 10 ^ f], the larger one on a tie, with the decimal
    point [f] digits from the right. *)
Definition fixedDigits (p q : Z) (f : nat) : string :=
  let scale := 10 ^ Z.of_nat f in
  let n := (2 * p * scale + q) / (2 * q) in
  let m := digits n in
  match f with
  | O => m
  | S _ =>
      let k := String.length m in
      let m' := if (k <=? f)%nat then repeat "0" (f + 1 - k) ++ m else m in
      let k' := String.length m' in
      take (k' - f) m' ++ "." ++ drop (k' - f) m'
  end.

(** [x.toFixed(f)]; [None] stands for the RangeError thrown when [f] is
    above 100. *)
Definition toFixed (x : number) (f : nat) : option string :=
  if (100 <? f)%nat then None
  else
    match x with
    | S754_finite s m e =>
        let p := numerator m e in
        let q := denominator e in
        if q * 10 ^ 21 <=? p then Some (toString x)
        else Some ((if s then "-" else "") ++ fixedDigits p q f)
    | S754_zero _ => Some (fixedDigits 0 1 f)
    | _ => Some (toString x)
    end.

End JSNumber.


(** ** The calculator *)

Module Calculator.
Import JSString JSNumber.

(** The keys of the [OPERATIONS] table. *)
Inductive Operator : Type := Plus | Minus | Times | Divide | Equals.

Definition Operator_eqb (a b : Operator) : bool :=
  match a, b with
  | Plus, Plus | Minus, Minus | Times, Times
  | Divide, Divide | Equals, Equals => true
  | _, _ => false
  end.

(** [OPERATIONS[op](previous, next)]. *)
Definition OPERATIONS (op : Operator) (previous next : number) : number :=
  match op with
  | Plus => add previous next
  | Minus => sub previous next
  | Times => mul previous next
  | Divide => div previous next
  | Equals => next
  end.

(** The seven [useState] cells of the component; [None] is [null]. *)
Record state : Type := mkState {
  displayValue : string;
  isDirty : bool;
  isPending : bool;
  value : option number;
  operator : Operator;
  previousValue : option number;
  previousOperator : Operator
}.

(** The values the cells are created with. *)
Definition initial : state :=
  {| displayValue := "0"; isDirty := false; isPending := false;
     value := None; operator := Equals;
     previousValue := None; previousOperator := Equals |}.

(** The setters.  A handler reads the cells of the render it was created in
    and queues its writes, so every handler below reads from the state [st] it
    is given and applies its setters to build the next one. *)
Definition setDisplayValue (v : string) (st : state) : state :=
  mkState v (isDirty st) (isPending st) (value st) (operator st)
          (previousValue st) (previousOperator st).

Definition setIsDirty (v : bool) (st : state) : state :=
  mkState (displayValue st) v (isPending st) (value st) (operator st)
          (previousValue st) (previousOperator st).

Definition setIsPending (v : bool) (st : state) : state :=
  mkState (displayValue st) (isDirty st) v (value st) (operator st)
          (previousValue st) (previousOperator st).

Definition setValue (v : option number) (st : state) : state :=
  mkState (displayValue st) (isDirty st) (isPending st) v (operator st)
          (previousValue st) (previousOperator st).

Definition setOperator (v : Operator) (st : state) : state :=
  mkState (displayValue st) (isDirty st) (isPending st) (value st) v
          (previousValue st) (previousOperator st).

Definition setPreviousValue (v : option number) (st : state) : state :=
  mkState (displayValue st) (isDirty st) (isPending st) (value st)
          (operator st) v (previousOperator st).

Definition setPreviousOperator (v : Operator) (st : state) : state :=
  mkState (displayValue st) (isDirty st) (isPending st) (value st)
          (operator st) (previousValue st) v.

(** [reset]: every cell back to its first value. *)
Definition reset (st : state) : state :=
  setPreviousOperator Equals (setPreviousValue None
    (setOperator Equals (setValue None
      (setIsPending false (setIsDirty false (setDisplayValue "0" st)))))).

(** [clear]. *)
Definition clear (st : state) : state :=
  let st1 := setIsDirty false (setDisplayValue "0" st) in
  if negb (Operator_eqb (operator st) Equals)
  then setIsPending true st1
  else st1.

(** [changeSign]. *)
Definition changeSign (st : state) : state :=
  if isPending st && negb (Operator_eqb (operator st) Equals) then
    setIsPending false (setIsDirty true (setDisplayValue "-0" st))
  else
    let st1 :=
      if startsWith "-" (displayValue st)
      then setDisplayValue (slice1 (displayValue st)) st
      else setDisplayValue ("-" ++ displayValue st) st in
    if negb (String.eqb (displayValue st) "0"
             || String.eqb (displayValue st) "-0")
    then setIsDirty true st1
    else st1.

(** [handlePercent]; [None] when [toFixed] throws its RangeError, which
    happens before any setter is called. *)
Definition handlePercent (st : state) : option state :=
  let number := ofString (displayValue st) in
  if isZero number then Some st
  else
    let decimalPart := stripIntegerPart (displayValue st) in
    let newValue := div number (ofString "100") in
    match toFixed newValue (String.length decimalPart + 2) with
    | Some text => Some (setIsDirty true (setDisplayValue text st))
    | None => None
    end.

(** [calculateAgain]: [None] for [false], the written state for [true]. *)
Definition calculateAgain (nextOperator : Operator) (st : state)
  : option state :=
  if Operator_eqb (previousOperator st) Equals
     || negb (Operator_eqb nextOperator Equals)
  then None
  else
    let newValue :=
      OPERATIONS (previousOperator st) (ofString (displayValue st))
                 (orZeroNullable (previousValue st)) in
    Some (setIsPending true (setIsDirty true
            (setDisplayValue (toString newValue)
               (setValue (Some newValue) st)))).

(** [pendingCalculation]: [None] for [false], the written state for [true]. *)
Definition pendingCalculation (nextOperator : Operator) (st : state)
  : option state :=
  if Operator_eqb nextOperator Equals
     && negb (Operator_eqb (operator st) Equals)
  then None
  else Some (setOperator nextOperator st).

(** The tail of [calculate], past its two early returns. *)
Definition applyAndChain (nextOperator : Operator) (st : state) : state :=
  let number := ofString (displayValue st) in
  let st1 :=
    match value st with
    | None => setValue (Some number) st
    | Some v =>
        let newValue := OPERATIONS (operator st) (orZero v) number in
        setIsDirty true (setDisplayValue (toString newValue)
          (setPreviousValue (Some number) (setValue (Some newValue) st)))
    end in
  setOperator nextOperator
    (setPreviousOperator (operator st) (setIsPending true st1)).

(** [calculate]. *)
Definition calculate (nextOperator : Operator) (st : state) : state :=
  match (if Operator_eqb (operator st) Equals
         then calculateAgain nextOperator st else None) with
  | Some st' => st'
  | None =>
      match (if isPending st
             then pendingCalculation nextOperator st else None) with
      | Some st' => st'
      | None => applyAndChain nextOperator st
      end
  end.

(** [handleDigit]. *)
Definition handleDigit (digit : string) (st : state) : state :=
  let st1 :=
    if String.eqb (displayValue st) "0" then setDisplayValue digit st
    else if String.eqb (displayValue st) "-0"
    then setDisplayValue ("-" ++ digit) st
    else if isPending st then setDisplayValue digit st
    else setDisplayValue (displayValue st ++ digit) st in
  setIsPending false (setIsDirty true st1).

(** [handleDot]. *)
Definition handleDot (st : state) : state :=
  if isPending st then
    setIsPending false (setIsDirty true (setDisplayValue "0." st))
  else if negb (hasDot (displayValue st)) then
    setIsPending false (setIsDirty true
      (setDisplayValue (displayValue st ++ ".") st))
  else st.

(** [handleBackspace]. *)
Definition handleBackspace (st : state) : state :=
  let newCurrent := sliceInit (displayValue st) in
  if String.eqb newCurrent "" || String.eqb newCurrent "-"
  then setDisplayValue "0" st
  else setIsDirty true (setDisplayValue newCurrent st).

(** *** Runs of user actions *)

(** What the buttons and keys of the component call. *)
Inductive action : Type :=
| Digit (d : string)
| Dot
| Backspace
| ChangeSign
| Percent
| Calculate (op : Operator)
| Clear
| Reset.

(** One action; a handler that throws leaves the cells as they were. *)
Definition perform (st : state) (a : action) : state :=
  match a with
  | Digit d => handleDigit d st
  | Dot => handleDot st
  | Backspace => handleBackspace st
  | ChangeSign => changeSign st
  | Percent =>
      match handlePercent st with
      | Some st' => st'
      | None => st
      end
  | Calculate op => calculate op st
  | Clear => clear st
  | Reset => reset st
  end.

Definition run (acts : list action) (st : state) : state :=
  fold_left perform acts st.

(** The digit buttons and the key filter [/^\d$/] pass one decimal digit. *)
Definition isDigitKey (d : string) : bool :=
  match d with
  | String c EmptyString => isDigit c
  | _ => false
  end.

Definition allowed (a : action) : Prop :=
  match a with
  | Digit d => isDigitKey d = true
  | _ => True
  end.

(** The keys of [OPERATIONS], as [Object.keys(OPERATIONS).includes(key)]
    finds them. *)
Definition operatorOfKey (key : string) : option Operator :=
  if String.eqb key "+" then Some Plus
  else if String.eqb key "-" then Some Minus
  else if String.eqb key "*" then Some Times
  else if String.eqb key "/" then Some Divide
  else if String.eqb key "=" then Some Equals
  else None.

(** The handler [handleInput] picks for a key, in the order of its tests. *)
Definition actionOfKey (key : string) (st : state) : option action :=
  if isDigitKey key then Some (Digit key)
  else if String.eqb key "." then Some Dot
  else if String.eqb key "Backspace" then Some Backspace
  else if String.eqb key "Escape"
  then Some (if isDirty st then Clear else Reset)
  else if String.eqb key "Enter" then Some (Calculate Equals)
  else if String.eqb key "%" then Some Percent
  else option_map Calculate (operatorOfKey key).

(** [handleInput], on the [key] of the event; other keys do nothing. *)
Definition handleInput (key : string) (st : state) : state :=
  match actionOfKey key st with
  | Some a => perform st a
  | None => st
  end.

(** The states the component can be in. *)
Inductive reachable : state -> Prop :=
| reachable_initial : reachable initial
| reachable_perform st a :
    reachable st -> allowed a -> reachable (perform st a).

End Calculator.


(** ** The vocabulary of the specification *)

Module Spec.
Import JSString JSNumber Calculator.

(** The repeat-equals branch of [calculate] applies. *)
Definition repeatEqualsApplies (nextOperator : Operator) (st : state) : bool :=
  Operator_eqb (operator st) Equals
  && Operator_eqb nextOperator Equals
  && negb (Operator_eqb (previousOperator st) Equals).

(** Pressing [=] while a binary operator waits confirms it. *)
Definition confirms (nextOperator : Operator) (st : state) : bool :=
  Operator_eqb nextOperator Equals
  && negb (Operator_eqb (operator st) Equals).

(** The pending-operator-swap branch of [calculate] applies. *)
Definition pendingSwapApplies (nextOperator : Operator) (st : state) : bool :=
  negb (repeatEqualsApplies nextOperator st)
  && isPending st && negb (confirms nextOperator st).

(** ToNumber on a number or [null]: what arithmetic makes of the operand. *)
Definition toNumber (v : option number) : number :=
  match v with
  | Some x => x
  | None => zero
  end.

(** Repeat-equals read to the letter: the previous operator applied to the
    parsed display and the previous operand itself. *)
Definition repeatEqualsAsStated (st : state) : state :=
  let result :=
    OPERATIONS (previousOperator st) (ofString (displayValue st))
               (toNumber (previousValue st)) in
  mkState (toString result) true true (Some result) (operator st)
          (previousValue st) (previousOperator st).

(** A leading minus sign put on or taken off. *)
Definition toggleSign (s : string) : string :=
  if startsWith "-" s then slice1 s else "-" ++ s.

(** Leading zeros dropped, a lone zero kept when nothing else is left. *)
Fixpoint dropZeros (s : string) : string :=
  match s with
  | String c r => if Ascii.eqb c "0" then dropZeros r else s
  | EmptyString => EmptyString
  end.

Definition collapseZeros (s : string) : string :=
  match dropZeros s with
  | EmptyString => "0"
  | t => t
  end.

(** The text without its leading minus sign, when it has one. *)
Definition unsigned (s : string) : string :=
  if startsWith "-" s then slice1 s else s.

(** The text after the first decimal point, when there is one. *)
Fixpoint afterDot (s : string) : option string :=
  match s with
  | String c r => if Ascii.eqb c "." then Some r else afterDot r
  | EmptyString => None
  end.

(** The number of fractional digits a text shows. *)
Definition fractionDigits (s : string) : nat :=
  match afterDot s with
  | Some r => String.length r
  | None => 0%nat
  end.

(** Digits with at most one decimal point among them. *)
Fixpoint isDecimalBody (seenDot : bool) (s : string) : bool :=
  match s with
  | String c r =>
      if isDigit c then isDecimalBody seenDot r
      else Ascii.eqb c "." && negb seenDot && isDecimalBody true r
  | EmptyString => true
  end.

(** A plain decimal numeral: an optional minus sign, then digits with at
    most one decimal point among them, and nothing else. *)
Definition isPlainDecimal (s : string) : bool :=
  isDecimalBody false (unsigned s).

(** A finite number of magnitude below [10 ^ 21], the range in which
    [toFixed] writes fixed-point text. *)
Definition belowExponentRange (x : number) : bool :=
  match x with
  | S754_finite _ m e => numerator m e <? denominator e * 10 ^ 21
  | S754_zero _ => true
  | _ => false
  end.

(** The display invariant the data model states: never empty, parsing to a
    finite number, at most one decimal point, and 0 only in the reset state. *)
Definition displayInvariantAsStated (st : state) : Prop :=
  displayValue st <> ""
  /\ isFinite (ofString (displayValue st)) = true
  /\ (count "." (displayValue st) <= 1)%nat
  /\ (displayValue st = "0" -> st = initial).

(** Text that is not empty, starts with no minus sign and holds at most one
    decimal point. *)
Definition unsignedText (t : string) : Prop :=
  t <> ""
  /\ startsWith "-" t = false
  /\ (count "." t <= 1)%nat.

(** What the display does keep: such a text, after at most one leading
    minus sign. *)
Definition wellFormed (s : string) : Prop :=
  unsignedText (unsigned s).

(** Keys that put 1 and twenty-four zeros on the display. *)
Definition largeEntry : list action :=
  Digit "1" :: List.repeat (Digit "0") 24.

(** Keys that put 0. and ninety-nine ones on the display. *)
Definition longFractionEntry : list action :=
  Digit "0" :: Dot :: List.repeat (Digit "1") 99.

(** Keys that divide one by zero. *)
Definition divisionByZero : list action :=
  [Digit "1"; Calculate Divide; Digit "0"; Calculate Equals].

(** Keys that clear the entry while an addition waits for its operand. *)
Definition clearedEntry : list action :=
  [Digit "5"; Calculate Plus; Clear].

(** The digits typed, one after the other. *)
Definition typed (ds : list string) : string :=
  fold_right String.append "" ds.

(** What a run of digit keys keeps true: nothing is pending, the display is
    the collapsed text typed so far and carries no sign. *)
Definition typing (pre : string) (st : state) : Prop :=
  isPending st = false
  /\ displayValue st = collapseZeros pre
  /\ startsWith "-" (displayValue st) = false.

(** The state on which repeat-equals read to the letter goes wrong:
    5, divide, sign, =, that is 5 / -0. *)
Definition minusZeroDivision : state :=
  run [Digit "5"; Calculate Divide; ChangeSign; Calculate Equals] initial.

(** Exposes the display a chain of setters leaves. *)
Ltac shown := unfold setIsPending, setIsDirty, setDisplayValue, setValue,
  setOperator, setPreviousValue, setPreviousOperator; simpl displayValue.

End Spec.

(** ** The panel and the shapes of its entry *)

Module Panel.
Import JSString JSNumber Calculator Spec.

(** The first button of the panel: it reads C and calls [clear] once the
    entry is dirty, and reads AC and calls [reset] otherwise. *)
Definition clearButton (st : state) : state :=
  if isDirty st then clear st else reset st.

(** The cells that hold the calculation in progress. *)
Definition accumulator (st : state)
  : option number * Operator * option number * Operator :=
  (value st, operator st, previousValue st, previousOperator st).

(** The actions that only edit the entry. *)
Definition editsEntry (a : action) : bool :=
  match a with
  | Calculate _ | Reset => false
  | _ => true
  end.

(** The keys a numeral is typed and corrected with. *)
Definition typesNumeral (a : action) : bool :=
  match a with
  | Calculate _ | Percent => false
  | _ => true
  end.

(** A typed numeral: an optional minus sign, at least one digit, then
    optionally a decimal point and more digits. *)
Definition isNumeral (s : string) : bool :=
  isPlainDecimal s
  && match unsigned s with
     | String c _ => isDigit c
     | EmptyString => false
     end.

Definition isNaN (x : number) : bool :=
  match x with
  | S754_nan => true
  | _ => false
  end.

(** The display shows zero, with or without a sign. *)
Definition showsZero (st : state) : bool :=
  String.eqb (displayValue st) "0" || String.eqb (displayValue st) "-0".

(** What the calculation cells keep true: a waiting operator or a pending
    entry has an accumulator, and a remembered operator has its operand. *)
Definition calculationConsistent (st : state) : Prop :=
  (isPending st = true \/ operator st <> Equals -> value st <> None)
  /\ (previousOperator st <> Equals -> previousValue st <> None).

(** The sign key takes its first branch: an operator was just chosen. *)
Definition signStartsOperand (st : state) : bool :=
  isPending st && negb (Operator_eqb (operator st) Equals).

(** Splits a goal along the tests of a handler. *)
Ltac branches :=
  repeat match goal with
         | |- context [if ?b then _ else _] => destruct b eqn:?
         | |- context [match toFixed ?x ?f with _ => _ end] =>
             destruct (toFixed x f)
         | |- context [match value ?s with _ => _ end] =>
             destruct (value s) eqn:?
         end.

End Panel.

(** ** The events of the rendered panel *)

Module Events.
Import JSString JSNumber Calculator Spec Panel.

(** What the rendered component reacts to: a key pressed in the display
    field, or one of its buttons clicked. *)
Inductive event : Type :=
| KeyDown (key : string)
| ClearButton
| SignButton
| PercentButton
| OperationButton (op : Operator)
| DigitButton (digit : string)
| DotButton.

(** The handler each event is wired to. *)
Definition handle (st : state) (e : event) : state :=
  match e with
  | KeyDown key => handleInput key st
  | ClearButton => clearButton st
  | SignButton => changeSign st
  | PercentButton => perform st Percent
  | OperationButton op => calculate op st
  | DigitButton digit => handleDigit digit st
  | DotButton => handleDot st
  end.

(** The digit buttons carry one decimal digit each. *)
Definition rendered (e : event) : Prop :=
  match e with
  | DigitButton digit => isDigitKey digit = true
  | _ => True
  end.

(** Events that start or finish no calculation: no operator button, no
    operator key and no Enter. *)
Definition entersOnly (e : event) : bool :=
  match e with
  | OperationButton _ => false
  | KeyDown key =>
      negb (String.eqb key "Enter")
      && match operatorOfKey key with
         | Some _ => false
         | None => true
         end
  | _ => true
  end.

End Events.

(** ** The earlier variant of the component *)

Module Legacy.
Import JSString JSNumber Calculator Events.

(** Its six [useState] cells; [lastValue] starts at 0, not at [null]. *)
Record state : Type := mkState {
  current : string;
  isPending : bool;
  value : option number;
  operator : Operator;
  lastValue : number;
  lastOperator : Operator
}.

Definition initial : state :=
  {| current := "0"; isPending := false; value := None;
     operator := Equals; lastValue := zero; lastOperator := Equals |}.

Definition setCurrent (v : string) (st : state) : state :=
  mkState v (isPending st) (value st) (operator st) (lastValue st)
          (lastOperator st).

Definition setIsPending (v : bool) (st : state) : state :=
  mkState (current st) v (value st) (operator st) (lastValue st)
          (lastOperator st).

Definition setValue (v : option number) (st : state) : state :=
  mkState (current st) (isPending st) v (operator st) (lastValue st)
          (lastOperator st).

Definition setOperator (v : Operator) (st : state) : state :=
  mkState (current st) (isPending st) (value st) v (lastValue st)
          (lastOperator st).

Definition setLastValue (v : number) (st : state) : state :=
  mkState (current st) (isPending st) (value st) (operator st) v
          (lastOperator st).

Definition setLastOperator (v : Operator) (st : state) : state :=
  mkState (current st) (isPending st) (value st) (operator st)
          (lastValue st) v.

(** The computed [shouldClear]. *)
Definition shouldClear (st : state) : bool :=
  negb (String.eqb (current st) "0" || String.eqb (current st) "-0").

Definition reset (st : state) : state :=
  setLastOperator Equals (setLastValue zero
    (setOperator Equals (setValue None
      (setIsPending false (setCurrent "0" st))))).

Definition clear (st : state) : state := setCurrent "0" st.

Definition changeSign (st : state) : state :=
  if isPending st && negb (Operator_eqb (operator st) Equals) then
    setIsPending false (setCurrent "-0" st)
  else
    let st1 :=
      if startsWith "-" (current st)
      then setCurrent (slice1 (current st)) st
      else setCurrent ("-" ++ current st) st in
    if Operator_eqb (operator st) Equals && negb (isPending st)
    then setValue (Some (SFopp (ofString (current st)))) st1
    else st1.

Definition handlePercent (st : state) : option state :=
  let number := ofString (current st) in
  if isZero number then Some st
  else
    let decimalPart := stripIntegerPart (current st) in
    let newValue := div number (ofString "100") in
    match toFixed newValue (String.length decimalPart + 2) with
    | Some text => Some (setCurrent text st)
    | None => None
    end.

Definition calculateAgain (nextOperator : Operator) (st : state)
  : option state :=
  if Operator_eqb (lastOperator st) Equals
     || negb (Operator_eqb nextOperator Equals)
  then None
  else
    let newValue :=
      OPERATIONS (lastOperator st) (ofString (current st)) (lastValue st) in
    Some (setIsPending true (setCurrent (toString newValue)
            (setValue (Some newValue) st))).

Definition pendingCalculation (nextOperator : Operator) (st : state)
  : option state :=
  if Operator_eqb nextOperator Equals
     && negb (Operator_eqb (operator st) Equals)
  then None
  else Some (setOperator nextOperator st).

Definition calculate (nextOperator : Operator) (st : state) : state :=
  match (if Operator_eqb (operator st) Equals
         then calculateAgain nextOperator st else None) with
  | Some st' => st'
  | None =>
      match (if isPending st
             then pendingCalculation nextOperator st else None) with
      | Some st' => st'
      | None =>
          let number := ofString (current st) in
          let st1 :=
            match value st with
            | None => setValue (Some number) st
            | Some v =>
                let newValue := OPERATIONS (operator st) (orZero v) number in
                setCurrent (toString newValue)
                  (setLastValue number (setValue (Some newValue) st))
            end in
          setOperator nextOperator
            (setLastOperator (operator st) (setIsPending true st1))
      end
  end.

Definition handleDigit (digit : string) (st : state) : state :=
  let st1 :=
    if String.eqb (current st) "0" || isPending st then setCurrent digit st
    else if String.eqb (current st) "-0"
    then setCurrent ("-" ++ digit) st
    else setCurrent (current st ++ digit) st in
  setIsPending false st1.

Definition handleDot (st : state) : state :=
  if isPending st then setIsPending false (setCurrent "0." st)
  else if negb (hasDot (current st)) then
    setIsPending false (setCurrent (current st ++ ".") st)
  else st.

Definition handleBackspace (st : state) : state :=
  let newCurrent := sliceInit (current st) in
  if String.eqb newCurrent "" || String.eqb newCurrent "-"
  then setCurrent "0" st
  else setCurrent newCurrent st.

(** A thrown RangeError leaves the cells as they were. *)
Definition percent (st : state) : state :=
  match handlePercent st with
  | Some st' => st'
  | None => st
  end.

Definition handleInput (key : string) (st : state) : state :=
  if isDigitKey key then handleDigit key st
  else if String.eqb key "." then handleDot st
  else if String.eqb key "Backspace" then handleBackspace st
  else if String.eqb key "Escape"
  then (if shouldClear st then clear st else reset st)
  else if String.eqb key "Enter" then calculate Equals st
  else if String.eqb key "%" then percent st
  else match operatorOfKey key with
       | Some op => calculate op st
       | None => st
       end.

(** What the two variants share while a number is being entered: the text
    shown, nothing pending and no operator waiting. *)
Definition entering (old : state) (new : Calculator.state) : Prop :=
  current old = Calculator.displayValue new
  /\ isPending old = false /\ Calculator.isPending new = false
  /\ operator old = Equals /\ Calculator.operator new = Equals.

(** What the two variants share in the course of a calculation: the text
    shown, the pending flag, the accumulator and the waiting operator. *)
Definition alike (old : state) (new : Calculator.state) : Prop :=
  current old = Calculator.displayValue new
  /\ isPending old = Calculator.isPending new
  /\ value old = Calculator.value new
  /\ operator old = Calculator.operator new.

(** The wiring of the rendered panel. *)
Definition handle (st : state) (e : event) : state :=
  match e with
  | KeyDown key => handleInput key st
  | ClearButton => if shouldClear st then clear st else reset st
  | SignButton => changeSign st
  | PercentButton => percent st
  | OperationButton op => calculate op st
  | DigitButton digit => handleDigit digit st
  | DotButton => handleDot st
  end.

(** Opens two states that share an entry. *)
Ltac entering_step old new H :=
  destruct old as [cur pending acc op lv lop];
  destruct new as [dv dirty pending' acc' op' pv pop];
  destruct H as (Hc & Hp & Hp' & Ho & Ho'); simpl in Hc, Hp, Hp', Ho, Ho';
  subst cur pending pending' op op'.

End Legacy.

(** ** The number model on known values *)

Module NumberExamples.
Import JSNumber.

Example ofString_tenth :
  ofString "0.1" = S754_finite false 7205759403792794 (-56).
Proof. vm_compute. reflexivity. Qed.

Example ofString_ties_to_even :
  ofString "9007199254740993" = S754_finite false 4503599627370496 1.
Proof. vm_compute. reflexivity. Qed.

Example ofString_overflow_and_underflow :
  ofString "1.7976931348623159e308" = Infinity
  /\ ofString "-2.4703282292062327e-324" = S754_zero true.
Proof. split; vm_compute; reflexivity. Qed.

Example ofString_not_numerals :
  ofString "" = zero /\ ofString "-" = NaN /\ ofString "1e+" = NaN
  /\ ofString "Infinit" = NaN /\ ofString "0x1F" = ofString "31".
Proof. repeat split; vm_compute; reflexivity. Qed.

Example toString_sum_of_tenths :
  toString (add (ofString "0.1") (ofString "0.2")) = "0.30000000000000004".
Proof. vm_compute. reflexivity. Qed.

Example toString_layouts :
  toString (ofString "123456789012345678901") = "123456789012345680000"
  /\ toString (ofString "1234567890123456789012") = "1.2345678901234568e+21"
  /\ toString (ofString "0.000001") = "0.000001"
  /\ toString (ofString "0.0000001") = "1e-7"
  /\ toString (div (ofString "2") (ofString "3")) = "0.6666666666666666"
  /\ toString (ofString "-0") = "0".
Proof. repeat split; vm_compute; reflexivity. Qed.

Example toFixed_rounding :
  toFixed (ofString "1.005") 2 = Some "1.00"
  /\ toFixed (ofString "2.5") 0 = Some "3"
  /\ toFixed (ofString "-0.0000001") 2 = Some "-0.00"
  /\ toFixed (ofString "1e21") 2 = Some "1e+21"
  /\ toFixed (ofString "0") 101 = None.
Proof. repeat split; vm_compute; reflexivity. Qed.

End NumberExamples.

(** ** Properties of [calculate] *)

Module CalculateFacts.
Import JSString JSNumber Calculator Spec.

Lemma Operator_eqb_eq (a b : Operator) : Operator_eqb a b = true <-> a = b.
Proof.
  split.
  - destruct a, b; simpl; intro H; try reflexivity; discriminate H.
  - intros ->. destruct b; reflexivity.
Qed.

Lemma Operator_eqb_neq (a b : Operator) : Operator_eqb a b = false <-> a <> b.
Proof.
  rewrite <- Operator_eqb_eq. destruct (Operator_eqb a b); split; congruence.
Qed.

(** C1. When neither the repeat-equals nor the pending-operator-swap branch
    applies, [calculate] parses the display; with no accumulator it stores the
    parsed number and does no arithmetic, otherwise it applies the current
    operator to the accumulator-or-zero and the number, stores the result,
    remembers the number as previous operand, shows the formatted result and
    marks the entry dirty; either way it sets the pending flag, moves the
    operator into the previous operator and installs the next operator.
    Typing 5, +, 3, = from the first state shows 8. *)
Theorem calculate_apply_and_chain :
  (forall (nextOperator : Operator) (st : state),
      repeatEqualsApplies nextOperator st = false ->
      pendingSwapApplies nextOperator st = false ->
      let number := ofString (displayValue st) in
      calculate nextOperator st =
      match value st with
      | None =>
          mkState (displayValue st) (isDirty st) true (Some number)
                  nextOperator (previousValue st) (operator st)
      | Some accumulated =>
          let result := OPERATIONS (operator st) (orZero accumulated) number in
          mkState (toString result) true true (Some result)
                  nextOperator (Some number) (operator st)
      end)
  /\ displayValue
       (run [Digit "5"; Calculate Plus; Digit "3"; Calculate Equals] initial)
     = "8".
Proof.
  split; [| vm_compute; reflexivity].
  intros nextOperator [dv dirty pending acc op pv pop].
  unfold repeatEqualsApplies, pendingSwapApplies, confirms, calculate,
    calculateAgain, pendingCalculation, applyAndChain; simpl.
  intros Hrepeat Hswap.
  destruct op, nextOperator, pop; simpl in *; try discriminate Hrepeat;
    destruct pending; simpl in *; try discriminate Hswap;
    destruct acc; reflexivity.
Qed.

Lemma calculate_apply_and_chain_witness :
  calculate Plus (handleDigit "5" initial) =
  mkState "5" true true (Some (ofString "5")) Plus None Equals.
Proof.
  apply (proj1 calculate_apply_and_chain Plus (handleDigit "5" initial));
    reflexivity.
Defined.

(** C2, as stated, fails: after 5 / -0 = the display is -Infinity and the
    previous operand is -0; a second = divides by the operand-or-zero, +0, and
    keeps -Infinity, where dividing by the operand itself gives Infinity. *)
Lemma repeat_equals_as_stated_fails :
  operator minusZeroDivision = Equals
  /\ previousOperator minusZeroDivision = Divide
  /\ previousValue minusZeroDivision = Some (S754_zero true)
  /\ displayValue minusZeroDivision = "-Infinity"
  /\ displayValue (calculate Equals minusZeroDivision) = "-Infinity"
  /\ displayValue (repeatEqualsAsStated minusZeroDivision) = "Infinity"
  /\ calculate Equals minusZeroDivision
     <> repeatEqualsAsStated minusZeroDivision.
Proof.
  repeat split; try (vm_compute; reflexivity).
  intro H. apply (f_equal displayValue) in H. vm_compute in H. discriminate H.
Qed.

(** C2, amended. With operator [=], a previous operator other than [=] and
    next operator [=], [calculate] applies the previous operator to the parsed
    display and the previous operand-or-zero (null, NaN and both zeros read as
    +0), stores the result as accumulator and as display, sets the dirty and
    pending flags and changes nothing else.  Typing 2, +, 3, = shows 5 and one
    more = shows 8. *)
Theorem calculate_repeat_equals :
  (forall st : state,
      operator st = Equals ->
      previousOperator st <> Equals ->
      let result :=
        OPERATIONS (previousOperator st) (ofString (displayValue st))
                   (orZeroNullable (previousValue st)) in
      calculate Equals st =
      mkState (toString result) true true (Some result) (operator st)
              (previousValue st) (previousOperator st))
  /\ displayValue
       (run [Digit "2"; Calculate Plus; Digit "3"; Calculate Equals] initial)
     = "5"
  /\ displayValue
       (run [Digit "2"; Calculate Plus; Digit "3"; Calculate Equals;
             Calculate Equals] initial)
     = "8".
Proof.
  split; [| split; vm_compute; reflexivity].
  intros st Hop Hprev result.
  apply Operator_eqb_eq in Hop. apply Operator_eqb_neq in Hprev.
  unfold calculate, calculateAgain.
  rewrite Hop, Hprev. reflexivity.
Qed.

Lemma calculate_repeat_equals_witness :
  calculate Equals minusZeroDivision =
  mkState "-Infinity" true true (Some (S754_infinity true)) Equals
          (Some (S754_zero true)) Divide.
Proof.
  apply (proj1 calculate_repeat_equals minusZeroDivision).
  - reflexivity.
  - discriminate.
Defined.

(** C4. With the pending flag set, unless the next operator is [=] while the
    current one is not, and when repeat-equals does not apply, [calculate]
    replaces the operator and leaves the six other cells as they were. *)
Theorem calculate_pending_swap (nextOperator : Operator) (st : state) :
  isPending st = true ->
  confirms nextOperator st = false ->
  repeatEqualsApplies nextOperator st = false ->
  calculate nextOperator st =
  mkState (displayValue st) (isDirty st) (isPending st) (value st)
          nextOperator (previousValue st) (previousOperator st).
Proof.
  destruct st as [dv dirty pending acc op pv pop].
  unfold confirms, repeatEqualsApplies, calculate, calculateAgain,
    pendingCalculation; simpl.
  intros -> Hconfirm Hrepeat. rewrite Hconfirm.
  destruct (Operator_eqb op Equals); [| reflexivity].
  destruct (Operator_eqb pop Equals); [reflexivity |].
  simpl in Hrepeat. rewrite andb_true_r in Hrepeat. rewrite Hrepeat.
  reflexivity.
Qed.

Lemma calculate_pending_swap_witness :
  calculate Minus (calculate Plus (handleDigit "7" initial)) =
  mkState "7" true true (Some (ofString "7")) Minus None Equals.
Proof.
  apply (calculate_pending_swap Minus
           (calculate Plus (handleDigit "7" initial))); reflexivity.
Defined.

(** C9. After [calculate] the pending flag is set and the operator is the
    next operator, whichever branch ran; this holds from every state, so in
    particular from every reachable one. *)
Theorem calculate_sets_pending_and_operator
  (nextOperator : Operator) (st : state) :
  isPending (calculate nextOperator st) = true
  /\ operator (calculate nextOperator st) = nextOperator.
Proof.
  unfold calculate.
  destruct (Operator_eqb (operator st) Equals) eqn:Hop.
  - unfold calculateAgain.
    destruct (Operator_eqb (previousOperator st) Equals
              || negb (Operator_eqb nextOperator Equals)) eqn:Hagain.
    + destruct (isPending st) eqn:Hpending; [| split; reflexivity].
      unfold pendingCalculation. rewrite Hop, andb_false_r. simpl.
      split; [exact Hpending | reflexivity].
    + simpl. split; [reflexivity |].
      apply orb_false_elim in Hagain as [_ Hnext].
      apply negb_false_iff, Operator_eqb_eq in Hnext.
      apply Operator_eqb_eq in Hop. congruence.
  - destruct (isPending st) eqn:Hpending; [| split; reflexivity].
    unfold pendingCalculation.
    destruct (Operator_eqb nextOperator Equals && negb (Operator_eqb (operator st) Equals));
      simpl; split; try reflexivity; exact Hpending.
Qed.

End CalculateFacts.

(** ** Properties of the entry handlers *)

Module EntryFacts.
Import JSString JSNumber Calculator Spec CalculateFacts.

(** C8. With the pending flag set and an operator other than [=],
    [changeSign] shows -0, marks the entry dirty and clears the pending flag
    (and touches no other cell).  Typing 4, +, sign from the first state ends
    with -0 on the display and the pending flag cleared. *)
Theorem changeSign_after_operator :
  (forall st : state,
      isPending st = true ->
      operator st <> Equals ->
      changeSign st =
      mkState "-0" true false (value st) (operator st)
              (previousValue st) (previousOperator st))
  /\ displayValue (run [Digit "4"; Calculate Plus; ChangeSign] initial) = "-0"
  /\ isPending (run [Digit "4"; Calculate Plus; ChangeSign] initial) = false.
Proof.
  split; [| split; reflexivity].
  intros st Hpending Hop. apply Operator_eqb_neq in Hop.
  unfold changeSign. rewrite Hpending, Hop. reflexivity.
Qed.

Lemma changeSign_after_operator_witness :
  changeSign (run [Digit "4"; Calculate Plus] initial) =
  mkState "-0" true false (Some (ofString "4")) Plus None Equals.
Proof.
  apply (proj1 changeSign_after_operator
           (run [Digit "4"; Calculate Plus] initial)).
  - reflexivity.
  - discriminate.
Defined.

(** C10, as stated, fails: = pressed in the first state leaves 0 on the
    display with the pending flag set and operator [=]; the sign key then
    shows -0 and the digit 5 shows -5, not 5. *)
Lemma digit_after_sign_toggle_not_replaced :
  isPending (run [Calculate Equals] initial) = true
  /\ operator (run [Calculate Equals] initial) = Equals
  /\ displayValue (run [Calculate Equals; ChangeSign] initial) = "-0"
  /\ isPending (run [Calculate Equals; ChangeSign] initial) = true
  /\ displayValue (run [Calculate Equals; ChangeSign; Digit "5"] initial)
     = "-5"
  /\ displayValue (run [Calculate Equals; ChangeSign; Digit "5"] initial)
     <> "5".
Proof.
  repeat split; try (vm_compute; reflexivity).
  vm_compute. discriminate.
Qed.

(** C10, amended. With the pending flag set and operator [=], [changeSign]
    toggles the leading minus sign of the display and leaves the pending flag
    set; a digit pressed next replaces the display with that digit, except
    when the toggled display is -0, where the digit is written after the minus
    sign. *)
Theorem changeSign_after_equals (st : state) (digit : string) :
  isPending st = true ->
  operator st = Equals ->
  displayValue (changeSign st) = toggleSign (displayValue st)
  /\ isPending (changeSign st) = true
  /\ displayValue (handleDigit digit (changeSign st)) =
     if String.eqb (toggleSign (displayValue st)) "-0"
     then "-" ++ digit
     else digit.
Proof.
  intros Hpending Hop.
  assert (Hkeep : isPending (changeSign st) = true
                  /\ displayValue (changeSign st)
                     = toggleSign (displayValue st)).
  { unfold changeSign, toggleSign. rewrite Hpending, Hop. simpl.
    destruct (startsWith "-" (displayValue st));
      destruct (negb _); split; solve [reflexivity | exact Hpending]. }
  destruct Hkeep as [Hp Hd].
  split; [exact Hd |]. split; [exact Hp |].
  unfold handleDigit. rewrite Hp, Hd. simpl.
  destruct (String.eqb_spec (toggleSign (displayValue st)) "0") as [-> | _];
    [reflexivity |].
  destruct (String.eqb (toggleSign (displayValue st)) "-0"); reflexivity.
Qed.

Lemma changeSign_after_equals_witness :
  displayValue (changeSign (run [Calculate Equals] initial)) = "-0"
  /\ isPending (changeSign (run [Calculate Equals] initial)) = true
  /\ displayValue
       (handleDigit "5" (changeSign (run [Calculate Equals] initial))) = "-5".
Proof.
  apply (changeSign_after_equals (run [Calculate Equals] initial) "5");
    reflexivity.
Defined.

End EntryFacts.

(** ** Facts about the string primitives *)

Module StringFacts.
Import JSString Spec.

Lemma sliceInit_snoc (s : string) (c : ascii) :
  sliceInit (s ++ String c "") = s.
Proof.
  induction s as [| a r IH]; simpl; [reflexivity |].
  rewrite IH. destruct r; reflexivity.
Qed.

Lemma append_empty_r (s : string) : s ++ "" = s.
Proof. induction s as [| a r IH]; simpl; [| rewrite IH]; reflexivity. Qed.

Lemma append_assoc (a b c : string) : (a ++ b) ++ c = a ++ (b ++ c).
Proof. induction a as [| x r IH]; simpl; [| rewrite IH]; reflexivity. Qed.

Lemma dropZeros_no_leading_zero (s : string) :
  startsWith "0" (dropZeros s) = false.
Proof.
  induction s as [| a r IH]; simpl; [reflexivity |].
  destruct (Ascii.eqb a "0") eqn:Ha; [exact IH | simpl; exact Ha].
Qed.

Lemma dropZeros_app_empty (s t : string) :
  dropZeros s = "" -> dropZeros (s ++ t) = dropZeros t.
Proof.
  induction s as [| a r IH]; simpl; [reflexivity |].
  destruct (Ascii.eqb a "0"); [exact IH | discriminate].
Qed.

Lemma dropZeros_app_nonempty (s t : string) :
  dropZeros s <> "" -> dropZeros (s ++ t) = dropZeros s ++ t.
Proof.
  induction s as [| a r IH]; simpl; [congruence |].
  destruct (Ascii.eqb a "0"); [exact IH | reflexivity].
Qed.

Lemma collapseZeros_digit (c : ascii) :
  collapseZeros (String c "") = String c "".
Proof.
  unfold collapseZeros; simpl.
  destruct (Ascii.eqb_spec c "0") as [-> |]; reflexivity.
Qed.

Lemma collapseZeros_zero_iff (s : string) :
  collapseZeros s = "0" <-> dropZeros s = "".
Proof.
  unfold collapseZeros. pose proof (dropZeros_no_leading_zero s) as H.
  destruct (dropZeros s) as [| a r]; [tauto |].
  split; [| discriminate]. intro E. rewrite E in H. discriminate H.
Qed.

Lemma isDigit_not_minus (c : ascii) : isDigit c = true -> Ascii.eqb c "-" = false.
Proof.
  intro H. destruct (Ascii.eqb_spec c "-") as [-> |]; [discriminate H | reflexivity].
Qed.

Lemma isDigit_not_dot (c : ascii) : isDigit c = true -> Ascii.eqb c "." = false.
Proof.
  intro H. destruct (Ascii.eqb_spec c ".") as [-> |]; [discriminate H | reflexivity].
Qed.

Lemma count_app (c : ascii) (a b : string) :
  count c (a ++ b) = (count c a + count c b)%nat.
Proof.
  induction a as [| x r IH]; simpl; [reflexivity |]. rewrite IH. lia.
Qed.

Lemma length_app (a b : string) :
  String.length (a ++ b) = (String.length a + String.length b)%nat.
Proof. induction a as [| x r IH]; simpl; [| rewrite IH]; reflexivity. Qed.

Lemma length_repeat (c : ascii) (n : nat) : String.length (repeat c n) = n.
Proof. induction n as [| n IH]; simpl; [| rewrite IH]; reflexivity. Qed.

Lemma length_drop (n : nat) (s : string) :
  String.length (drop n s) = (String.length s - n)%nat.
Proof.
  revert s. induction n as [| n IH]; intros [| a r]; simpl; try reflexivity.
  - apply IH.
Qed.

Lemma take_drop (n : nat) (s : string) : take n s ++ drop n s = s.
Proof.
  revert s. induction n as [| n IH]; intros [| a r]; simpl; try reflexivity.
  rewrite IH. reflexivity.
Qed.

Lemma allDigits_app (a b : string) :
  allDigits (a ++ b) = allDigits a && allDigits b.
Proof.
  induction a as [| x r IH]; simpl; [reflexivity |].
  rewrite IH, andb_assoc. reflexivity.
Qed.

Lemma allDigits_repeat_zero (n : nat) : allDigits (repeat "0" n) = true.
Proof. induction n as [| n IH]; simpl; [reflexivity | exact IH]. Qed.

Lemma allDigits_take (n : nat) (s : string) :
  allDigits s = true -> allDigits (take n s) = true.
Proof.
  revert s. induction n as [| n IH]; intros [| a r]; simpl; try reflexivity.
  intro H. apply andb_prop in H as [Ha Hr]. rewrite Ha. simpl. apply IH, Hr.
Qed.

Lemma allDigits_drop (n : nat) (s : string) :
  allDigits s = true -> allDigits (drop n s) = true.
Proof.
  revert s. induction n as [| n IH]; intros [| a r]; simpl; try tauto.
  intro H. apply andb_prop in H as [_ Hr]. apply IH, Hr.
Qed.

Lemma allDigits_count_dot (s : string) :
  allDigits s = true -> count "." s = 0%nat.
Proof.
  induction s as [| a r IH]; simpl; [reflexivity |].
  intro H. apply andb_prop in H as [Ha Hr].
  rewrite (isDigit_not_dot a Ha), (IH Hr). reflexivity.
Qed.

Lemma allDigits_no_minus (s : string) :
  allDigits s = true -> startsWith "-" s = false.
Proof.
  destruct s as [| a r]; simpl; [reflexivity |].
  intro H. apply andb_prop in H as [Ha _]. exact (isDigit_not_minus a Ha).
Qed.

Lemma startsWith_app (c : ascii) (s t : string) :
  s <> "" -> startsWith c (s ++ t) = startsWith c s.
Proof. destruct s; [congruence | reflexivity]. Qed.

Lemma append_nonempty_l (s t : string) : s <> "" -> s ++ t <> "".
Proof. destruct s; [congruence | discriminate]. Qed.

Lemma afterDot_app_digits (a b : string) :
  allDigits a = true -> afterDot (a ++ String "." b) = Some b.
Proof.
  induction a as [| x r IH]; simpl; [reflexivity |].
  intro H. apply andb_prop in H as [Hx Hr].
  rewrite (isDigit_not_dot x Hx). exact (IH Hr).
Qed.

End StringFacts.

(** ** Typing digits and erasing them *)

Module TypingFacts.
Import JSString JSNumber Calculator Spec StringFacts.

Lemma handleDigit_typing (pre digit : string) (st : state) :
  isDigitKey digit = true ->
  typing pre st -> typing (pre ++ digit) (handleDigit digit st).
Proof.
  destruct digit as [| c [| ? ?]]; try discriminate. simpl.
  intros Hc (Hpending & Hshown & Hsign).
  pose proof (isDigit_not_minus c Hc) as Hminus.
  unfold typing, handleDigit. rewrite Hpending. simpl.
  split; [reflexivity |].
  destruct (String.eqb_spec (displayValue st) "0") as [Hzero | Hnonzero]; simpl.
  - split; [| exact Hminus].
    rewrite Hzero in Hshown. symmetry in Hshown.
    apply collapseZeros_zero_iff in Hshown.
    unfold collapseZeros. rewrite (dropZeros_app_empty _ _ Hshown).
    exact (eq_sym (collapseZeros_digit c)).
  - destruct (String.eqb_spec (displayValue st) "-0") as [Hneg | _]; simpl.
    + rewrite Hneg in Hsign. discriminate Hsign.
    + assert (Hkept : dropZeros pre <> "").
      { intro E. apply collapseZeros_zero_iff in E. congruence. }
      assert (Hsame : collapseZeros pre = dropZeros pre).
      { unfold collapseZeros. destruct (dropZeros pre); congruence. }
      split.
      * unfold collapseZeros. rewrite (dropZeros_app_nonempty _ _ Hkept).
        rewrite Hshown, Hsame.
        destruct (dropZeros pre); [congruence | reflexivity].
      * destruct (displayValue st); [exact Hminus | exact Hsign].
Qed.

Lemma run_digits_typing (ds : list string) :
  Forall (fun d => isDigitKey d = true) ds ->
  forall (pre : string) (st : state),
    typing pre st -> typing (pre ++ typed ds) (run (map Digit ds) st).
Proof.
  induction 1 as [| d ds Hd _ IH]; intros pre st Hst; simpl.
  - rewrite append_empty_r. exact Hst.
  - rewrite <- append_assoc. apply IH, handleDigit_typing; assumption.
Qed.

(** C6. After any run of digit keys from the first state the display is the
    digits typed, joined, with the leading zeros collapsed (a lone 0 when
    nothing else is left); 1, 2, 3 shows 123; and every digit key marks the
    entry dirty. *)
Theorem digits_show_collapsed_concatenation :
  (forall ds : list string,
      Forall (fun d => isDigitKey d = true) ds ->
      displayValue (run (map Digit ds) initial) = collapseZeros (typed ds))
  /\ displayValue (run [Digit "1"; Digit "2"; Digit "3"] initial) = "123"
  /\ (forall (digit : string) (st : state),
         isDirty (handleDigit digit st) = true).
Proof.
  split; [| split; [reflexivity | intros digit st; reflexivity]].
  intros ds Hds.
  destruct (run_digits_typing ds Hds "" initial) as (_ & Hshown & _).
  - repeat split.
  - exact Hshown.
Qed.

Lemma digits_show_collapsed_concatenation_witness :
  displayValue (run (map Digit ["0"; "0"; "7"; "0"]) initial) = "70".
Proof.
  apply (proj1 digits_show_collapsed_concatenation ["0"; "0"; "7"; "0"]).
  repeat constructor.
Defined.

Lemma backspace_from_zero (st : state) :
  displayValue st = "0" -> displayValue (handleBackspace st) = "0".
Proof. unfold handleBackspace. intros ->. reflexivity. Qed.

(** C7. [handleBackspace] removes the last character of the display (an
    empty display has none to remove); when nothing or only a minus sign is
    left the display goes back to 0, otherwise what is left is shown and the
    entry is marked dirty.  From a display of 0 or -0, one or more backspaces
    in a row leave 0 on the display, never the empty string. *)
Theorem backspace_erases_last_character :
  (forall (st : state) (kept : string) (last : ascii),
      displayValue st = kept ++ String last "" ->
      handleBackspace st =
      if String.eqb kept "" || String.eqb kept "-"
      then setDisplayValue "0" st
      else setIsDirty true (setDisplayValue kept st))
  /\ (forall st : state,
         displayValue st = "" -> handleBackspace st = setDisplayValue "0" st)
  /\ (forall (n : nat) (st : state),
         displayValue st = "0" \/ displayValue st = "-0" ->
         displayValue (Nat.iter (S n) handleBackspace st) = "0"
         /\ displayValue (Nat.iter (S n) handleBackspace st) <> "").
Proof.
  split; [| split].
  - intros st kept last Hshown. unfold handleBackspace.
    rewrite Hshown, sliceInit_snoc. reflexivity.
  - intros st Hshown. unfold handleBackspace. rewrite Hshown. reflexivity.
  - intros n st Hshown.
    assert (H1 : displayValue (handleBackspace st) = "0").
    { unfold handleBackspace. destruct Hshown as [-> | ->]; reflexivity. }
    assert (Hn : displayValue (Nat.iter (S n) handleBackspace st) = "0").
    { induction n as [| n IH]; [exact H1 |].
      change (Nat.iter (S (S n)) handleBackspace st)
        with (handleBackspace (Nat.iter (S n) handleBackspace st)).
      apply backspace_from_zero, IH. }
    split; [exact Hn | rewrite Hn; discriminate].
Qed.

Lemma backspace_erases_last_character_witness :
  handleBackspace (run [Digit "4"; Digit "2"] initial) =
  setIsDirty true (setDisplayValue "4" (run [Digit "4"; Digit "2"] initial))
  /\ displayValue (Nat.iter 3 handleBackspace (changeSign initial)) = "0".
Proof.
  split.
  - apply (proj1 backspace_erases_last_character
             (run [Digit "4"; Digit "2"] initial) "4" "2"%char).
    reflexivity.
  - apply (proj2 (proj2 backspace_erases_last_character) 2%nat
             (changeSign initial)).
    right. reflexivity.
Defined.

End TypingFacts.

(** ** The shape of the text [toString] and [toFixed] produce *)

Module NumberFacts.
Import JSString JSNumber Spec StringFacts.

Lemma string_of_uint_allDigits (u : Decimal.uint) :
  allDigits (NilEmpty.string_of_uint u) = true.
Proof. induction u; simpl; auto. Qed.

Lemma string_of_uint_nonempty (u : Decimal.uint) :
  u <> Decimal.Nil -> NilEmpty.string_of_uint u <> "".
Proof. destruct u; simpl; congruence. Qed.

Lemma digits_allDigits (n : Z) : allDigits (digits n) = true.
Proof. apply string_of_uint_allDigits. Qed.

Lemma digits_nonempty (n : Z) : digits n <> "".
Proof.
  unfold digits. apply string_of_uint_nonempty.
  destruct (Z.to_N n) as [| p]; simpl; [discriminate |].
  apply Unsigned.to_uint_nonnil.
Qed.

(** Text that opens with digits and goes on with [rest]. *)
Lemma digits_then_unsignedText (ds rest : string) :
  allDigits ds = true ->
  ds ++ rest <> "" ->
  startsWith "-" rest = false ->
  (count "." rest <= 1)%nat ->
  unsignedText (ds ++ rest).
Proof.
  intros Hds Hne Hrest Hdots. repeat split.
  - exact Hne.
  - destruct ds as [| a r]; [exact Hrest |].
    simpl in *. apply andb_prop in Hds as [Ha _].
    exact (isDigit_not_minus a Ha).
  - rewrite count_app, (allDigits_count_dot ds Hds). exact Hdots.
Qed.

Lemma exponent_suffix_dots (t : string) (e : Z) :
  allDigits t = true ->
  count "." (t ++ "e" ++ (if 0 <=? e then "+" else "-") ++ digits (Z.abs e))
  = 0%nat.
Proof.
  intro Ht. rewrite count_app, (allDigits_count_dot t Ht).
  destruct (0 <=? e); simpl;
    apply (allDigits_count_dot _ (digits_allDigits (Z.abs e))).
Qed.

Lemma layout_unsignedText (ds : string) (n : Z) :
  allDigits ds = true -> ds <> "" -> unsignedText (layout ds n).
Proof.
  intros Hds Hne. unfold layout.
  destruct ((Z.of_nat (String.length ds) <=? n) && (n <=? 21)).
  { apply digits_then_unsignedText; auto using append_nonempty_l.
    - destruct (Z.to_nat _); reflexivity.
    - rewrite allDigits_count_dot by apply allDigits_repeat_zero. lia. }
  destruct ((0 <? n) && (n <=? 21)).
  { apply digits_then_unsignedText; auto using allDigits_take.
    - destruct (take (Z.to_nat n) ds); discriminate.
    - rewrite count_app, (allDigits_count_dot (drop _ ds))
        by auto using allDigits_drop.
      simpl. lia. }
  destruct ((-6 <? n) && (n <=? 0)).
  { apply (digits_then_unsignedText "0"); try reflexivity; try discriminate.
    simpl. rewrite count_app, (allDigits_count_dot ds Hds).
    rewrite allDigits_count_dot by apply allDigits_repeat_zero.
    lia. }
  destruct (Z.of_nat (String.length ds) =? 1).
  { apply digits_then_unsignedText; auto using append_nonempty_l.
    pose proof (exponent_suffix_dots "" (n - 1) eq_refl) as Hsuffix.
    simpl in Hsuffix |- *. rewrite Hsuffix. lia. }
  apply digits_then_unsignedText; auto using allDigits_take.
  - destruct (take 1 ds); discriminate.
  - rewrite count_app, exponent_suffix_dots by auto using allDigits_drop.
    simpl. lia.
Qed.

Lemma positiveToString_unsignedText (m : positive) (e : Z) :
  unsignedText (positiveToString m e).
Proof.
  unfold positiveToString.
  destruct (shortest _ _ _ _ _ _) as [s n].
  apply layout_unsignedText; [apply digits_allDigits | apply digits_nonempty].
Qed.

Lemma unsignedText_signed (neg : bool) (t : string) :
  unsignedText t -> wellFormed ((if neg then "-" else "") ++ t).
Proof.
  intros Ht. unfold wellFormed, unsigned.
  destruct neg; simpl; [exact Ht |].
  pose proof Ht as (_ & Hsign & _). rewrite Hsign. exact Ht.
Qed.

Lemma toString_wellFormed (x : number) : wellFormed (toString x).
Proof.
  destruct x as [s | s | | s m e]; simpl.
  - repeat split; solve [discriminate | simpl; lia].
  - apply unsignedText_signed. repeat split; solve [discriminate | simpl; lia].
  - repeat split; solve [discriminate | simpl; lia].
  - apply unsignedText_signed, positiveToString_unsignedText.
Qed.

Lemma fixedDigits_unsignedText (p q : Z) (f : nat) :
  unsignedText (fixedDigits p q f).
Proof.
  unfold fixedDigits.
  set (m := digits ((2 * p * 10 ^ Z.of_nat f + q) / (2 * q))).
  assert (Hm : allDigits m = true) by apply digits_allDigits.
  destruct f as [| f].
  - rewrite <- (append_empty_r m).
    apply digits_then_unsignedText; try reflexivity; try (simpl; lia); auto.
    rewrite append_empty_r. apply digits_nonempty.
  - set (m' := if (String.length m <=? S f)%nat
               then repeat "0" (S f + 1 - String.length m) ++ m else m).
    assert (Hm' : allDigits m' = true).
    { subst m'. destruct (_ <=? _)%nat; [| exact Hm].
      rewrite allDigits_app, allDigits_repeat_zero, Hm. reflexivity. }
    apply digits_then_unsignedText; auto using allDigits_take.
    + destruct (take _ m'); discriminate.
    + rewrite (count_app "." "."), (allDigits_count_dot (drop _ m'))
        by auto using allDigits_drop.
      simpl. lia.
Qed.

Lemma toFixed_wellFormed (x : number) (f : nat) (text : string) :
  toFixed x f = Some text -> wellFormed text.
Proof.
  unfold toFixed. destruct (100 <? f)%nat; [discriminate |].
  destruct x as [s | s | | s m e].
  - intros [= <-]. apply (unsignedText_signed false), fixedDigits_unsignedText.
  - intros [= <-]. exact (toString_wellFormed (S754_infinity s)).
  - intros [= <-]. exact (toString_wellFormed S754_nan).
  - destruct (_ <=? _); intros [= <-].
    + exact (toString_wellFormed (S754_finite s m e)).
    + apply unsignedText_signed, fixedDigits_unsignedText.
Qed.

(** Inside its fixed-point range [toFixed] writes exactly [f] digits after
    the decimal point. *)
Lemma fixedDigits_fraction (p q : Z) (f : nat) :
  afterDot (fixedDigits p q (S f)) <> None
  /\ fractionDigits (fixedDigits p q (S f)) = S f.
Proof.
  unfold fixedDigits, fractionDigits.
  set (m := digits ((2 * p * 10 ^ Z.of_nat (S f) + q) / (2 * q))).
  assert (Hm : allDigits m = true) by apply digits_allDigits.
  set (m' := if (String.length m <=? S f)%nat
             then repeat "0" (S f + 1 - String.length m) ++ m else m).
  assert (Hm' : allDigits m' = true).
  { subst m'. destruct (_ <=? _)%nat; [| exact Hm].
    rewrite allDigits_app, allDigits_repeat_zero, Hm. reflexivity. }
  assert (Hlen : (S f < String.length m')%nat).
  { subst m'. destruct (Nat.leb_spec (String.length m) (S f)); [| lia].
    rewrite length_app, length_repeat. lia. }
  change (take (String.length m' - S f) m' ++ "." ++ drop (String.length m' - S f) m')
    with (take (String.length m' - S f) m'
          ++ String "." (drop (String.length m' - S f) m')).
  rewrite afterDot_app_digits by auto using allDigits_take.
  split; [discriminate |]. rewrite length_drop. lia.
Qed.

Lemma toFixed_fraction (x : number) (f : nat) :
  belowExponentRange x = true ->
  (f <= 99)%nat ->
  exists text : string,
    toFixed x (S f) = Some text /\ fractionDigits text = S f.
Proof.
  intros Hrange Hf. unfold toFixed.
  destruct (Nat.ltb_spec 100 (S f)) as [Hbig | _]; [lia |].
  destruct x as [s | s | | s m e]; simpl in Hrange; try discriminate.
  - eexists. split; [reflexivity | apply fixedDigits_fraction].
  - apply Z.ltb_lt in Hrange.
    destruct (Z.leb_spec (denominator e * 10 ^ 21) (numerator m e)); [lia |].
    eexists. split; [reflexivity |].
    destruct s; [| apply fixedDigits_fraction].
    unfold fractionDigits. simpl. apply fixedDigits_fraction.
Qed.

End NumberFacts.

(** ** Percent *)

Module PercentFacts.
Import JSString JSNumber Calculator Spec StringFacts NumberFacts.

Lemma afterDot_unsigned (s : string) : afterDot (unsigned s) = afterDot s.
Proof.
  destruct s as [| a r]; [reflexivity |]. unfold unsigned. simpl.
  destruct (Ascii.eqb_spec a "-") as [-> |]; reflexivity.
Qed.

(** On a plain decimal body the pattern [\d*\.?] eats up to and including the
    decimal point, so what [replace] leaves is the fraction. *)
Lemma decimalBody_fraction (seenDot : bool) (b : string) :
  isDecimalBody seenDot b = true ->
  String.length (let rest := snd (spanDigits b) in
                 if startsWith "." rest then slice1 rest else rest)
  = match afterDot b with
    | Some r => String.length r
    | None => 0%nat
    end.
Proof.
  induction b as [| c r IH]; simpl; [reflexivity |].
  destruct (isDigit c) eqn:Hc.
  - intro Hr. rewrite (isDigit_not_dot c Hc).
    destruct (spanDigits r) as [d t]. exact (IH Hr).
  - intro H. apply andb_prop in H as [H _]. apply andb_prop in H as [Hdot _].
    simpl. rewrite Hdot. reflexivity.
Qed.

Lemma stripIntegerPart_length (s : string) :
  isPlainDecimal s = true ->
  String.length (stripIntegerPart s) = fractionDigits s.
Proof.
  intro H. unfold fractionDigits. rewrite <- afterDot_unsigned.
  exact (decimalBody_fraction false (unsigned s) H).
Qed.

(** C5, as stated, fails twice over.  With 1 and twenty-four zeros on the
    display, percent shows 1e+22, which has no fractional digit at all where
    two were promised; with 0. and ninety-nine ones, [toFixed] is asked for
    101 digits and throws, so nothing is replaced. *)
Lemma percent_as_stated_fails :
  displayValue (run largeEntry initial) = "1000000000000000000000000"
  /\ isZero (ofString (displayValue (run largeEntry initial))) = false
  /\ fractionDigits (displayValue (run largeEntry initial)) = 0%nat
  /\ option_map displayValue (handlePercent (run largeEntry initial))
     = Some "1e+22"
  /\ fractionDigits "1e+22" <> 2%nat
  /\ isZero (ofString (displayValue (run longFractionEntry initial))) = false
  /\ fractionDigits (displayValue (run longFractionEntry initial)) = 99%nat
  /\ handlePercent (run longFractionEntry initial) = None.
Proof.
  repeat split; try (vm_compute; reflexivity).
  vm_compute. discriminate.
Qed.

(** C5, amended. [handlePercent] parses the display to a number; when the
    number is zero the state is unchanged; otherwise, when the display is a
    plain decimal numeral with at most 98 fractional digits and the hundredth
    of the number is finite and below 10^21 in magnitude, the display becomes
    that hundredth written with exactly two more fractional digits than the
    display had, the entry is marked dirty and no other cell changes.
    Typing 5, 0, percent from the first state shows 0.50. *)
Theorem percent_scales_display :
  (forall st : state,
      isZero (ofString (displayValue st)) = true ->
      handlePercent st = Some st)
  /\ (forall st : state,
         isZero (ofString (displayValue st)) = false ->
         isPlainDecimal (displayValue st) = true ->
         (fractionDigits (displayValue st) <= 98)%nat ->
         belowExponentRange
           (div (ofString (displayValue st)) (ofString "100")) = true ->
         exists text : string,
           toFixed (div (ofString (displayValue st)) (ofString "100"))
                   (fractionDigits (displayValue st) + 2) = Some text
           /\ fractionDigits text = (fractionDigits (displayValue st) + 2)%nat
           /\ handlePercent st =
              Some (mkState text true (isPending st) (value st) (operator st)
                            (previousValue st) (previousOperator st)))
  /\ displayValue (run [Digit "5"; Digit "0"; Percent] initial) = "0.50".
Proof.
  split; [| split; [| vm_compute; reflexivity]].
  - intros st Hzero. unfold handlePercent. rewrite Hzero. reflexivity.
  - intros st Hzero Hplain Hdigits Hrange.
    unfold handlePercent. rewrite Hzero.
    rewrite (stripIntegerPart_length _ Hplain).
    replace (fractionDigits (displayValue st) + 2)%nat
      with (S (S (fractionDigits (displayValue st)))) by lia.
    destruct (toFixed_fraction _ (S (fractionDigits (displayValue st)))
                Hrange) as (text & Htext & Hfraction); [lia |].
    exists text. rewrite Htext. repeat split; assumption.
Qed.

Lemma percent_scales_display_witness :
  exists text : string,
    toFixed (div (ofString "12.5") (ofString "100")) 3 = Some text
    /\ fractionDigits text = 3%nat
    /\ handlePercent (run [Digit "1"; Digit "2"; Dot; Digit "5"] initial) =
       Some (mkState text true false None Equals None Equals).
Proof.
  apply (proj1 (proj2 percent_scales_display)
           (run [Digit "1"; Digit "2"; Dot; Digit "5"] initial)).
  - vm_compute. reflexivity.
  - vm_compute. reflexivity.
  - change (1 <= 98)%nat. lia.
  - vm_compute. reflexivity.
Defined.

End PercentFacts.

(** ** The display invariant *)

Module DisplayFacts.
Import JSString JSNumber Calculator Spec StringFacts NumberFacts.

Lemma unsigned_app (s t : string) :
  unsigned s <> "" -> unsigned (s ++ t) = unsigned s ++ t.
Proof.
  destruct s as [| a r]; unfold unsigned; simpl; [congruence |].
  destruct (Ascii.eqb a "-"); reflexivity.
Qed.

Lemma wellFormed_app (s t : string) :
  wellFormed s ->
  (count "." (unsigned s) + count "." t <= 1)%nat ->
  wellFormed (s ++ t).
Proof.
  intros (Hne & Hsign & _) Hdots. unfold wellFormed.
  rewrite (unsigned_app s t Hne). repeat split.
  - apply append_nonempty_l, Hne.
  - rewrite startsWith_app by exact Hne. exact Hsign.
  - rewrite count_app. exact Hdots.
Qed.

Lemma wellFormed_digitKey (d : string) :
  isDigitKey d = true -> wellFormed d /\ wellFormed ("-" ++ d).
Proof.
  destruct d as [| c [| ? ?]]; try discriminate. simpl. intro Hc.
  assert (Hbody : unsignedText (String c "")).
  { repeat split; [discriminate | exact (isDigit_not_minus c Hc) |].
    simpl. rewrite (isDigit_not_dot c Hc). lia. }
  split; [exact (unsignedText_signed false _ Hbody) |].
  exact (unsignedText_signed true _ Hbody).
Qed.

Lemma count_unsigned_dot (s : string) : count "." (unsigned s) = count "." s.
Proof.
  destruct s as [| a r]; [reflexivity |]. unfold unsigned. simpl.
  destruct (Ascii.eqb_spec a "-") as [-> |]; reflexivity.
Qed.

Lemma hasDot_false (s : string) : hasDot s = false -> count "." s = 0%nat.
Proof.
  unfold hasDot. intro H. apply negb_false_iff, Nat.eqb_eq in H. exact H.
Qed.

Lemma sliceInit_step (a : ascii) (r : string) :
  r <> "" -> sliceInit (String a r) = String a (sliceInit r).
Proof. destruct r; [congruence | reflexivity]. Qed.

Lemma startsWith_sliceInit (c : ascii) (s : string) :
  startsWith c s = false -> startsWith c (sliceInit s) = false.
Proof. destruct s as [| a [| b r]]; simpl; auto. Qed.

Lemma count_sliceInit (c : ascii) (s : string) :
  (count c (sliceInit s) <= count c s)%nat.
Proof.
  induction s as [| a r IH]; [simpl; lia |].
  destruct r as [| b r']; [simpl; lia |].
  rewrite sliceInit_step by discriminate.
  change (count c (String a (sliceInit (String b r'))))
    with ((if Ascii.eqb a c then 1 else 0)
          + count c (sliceInit (String b r')))%nat.
  change (count c (String a (String b r')))
    with ((if Ascii.eqb a c then 1 else 0) + count c (String b r'))%nat.
  lia.
Qed.

Lemma wellFormed_sliceInit (s : string) :
  wellFormed s ->
  sliceInit s <> "" -> sliceInit s <> "-" ->
  wellFormed (sliceInit s).
Proof.
  intros (Hne & Hsign & Hdots) Hleft Hminus.
  assert (Hbody : unsigned (sliceInit s) = sliceInit (unsigned s)
                  /\ sliceInit (unsigned s) <> "").
  { destruct s as [| a r]; [contradiction |].
    destruct r as [| b r']; [contradiction |].
    rewrite sliceInit_step in * by discriminate.
    unfold unsigned in *. simpl startsWith in *. simpl slice1 in *.
    destruct (Ascii.eqb_spec a "-") as [-> | Ha]; split;
      solve [reflexivity | congruence | discriminate]. }
  destruct Hbody as [Heq Hkept]. unfold wellFormed. rewrite Heq.
  repeat split.
  - exact Hkept.
  - apply startsWith_sliceInit, Hsign.
  - pose proof (count_sliceInit "." (unsigned s)). lia.
Qed.

Lemma wellFormed_toggle (s : string) :
  wellFormed s ->
  wellFormed (if startsWith "-" s then slice1 s else "-" ++ s).
Proof.
  intros H. pose proof H as (Hne & Hsign & Hdots).
  unfold wellFormed, unsigned in *.
  destruct (startsWith "-" s) eqn:Hs.
  - rewrite Hsign. exact H.
  - exact H.
Qed.

Lemma wellFormed_zero : wellFormed "0".
Proof. repeat split; [discriminate | simpl; lia]. Qed.

(** [calculate] leaves the display alone or shows a number. *)
Lemma applyAndChain_display (op : Operator) (st : state) :
  displayValue (applyAndChain op st) = displayValue st
  \/ exists x : number, displayValue (applyAndChain op st) = toString x.
Proof.
  unfold applyAndChain. destruct (value st) as [v |].
  - right. eexists. reflexivity.
  - left. reflexivity.
Qed.

Lemma calculate_display (op : Operator) (st : state) :
  displayValue (calculate op st) = displayValue st
  \/ exists x : number, displayValue (calculate op st) = toString x.
Proof.
  unfold calculate.
  destruct (if Operator_eqb (operator st) Equals
            then calculateAgain op st else None) as [st' |] eqn:Hagain.
  - destruct (Operator_eqb (operator st) Equals); [| discriminate Hagain].
    unfold calculateAgain in Hagain.
    destruct (_ || _); [discriminate Hagain |].
    injection Hagain as <-. right. eexists. reflexivity.
  - destruct (if isPending st then pendingCalculation op st else None)
      as [st' |] eqn:Hswap.
    + destruct (isPending st); [| discriminate Hswap].
      unfold pendingCalculation in Hswap.
      destruct (_ && _); [discriminate Hswap |].
      injection Hswap as <-. left. reflexivity.
    + apply applyAndChain_display.
Qed.

Lemma perform_wellFormed (st : state) (a : action) :
  allowed a ->
  wellFormed (displayValue st) ->
  wellFormed (displayValue (perform st a)).
Proof.
  intros Ha Hst. destruct a as [d | | | | | op | |]; simpl perform.
  - destruct (wellFormed_digitKey d Ha) as [Hd Hminus].
    unfold handleDigit.
    destruct (String.eqb (displayValue st) "0"); [shown; exact Hd |].
    destruct (String.eqb (displayValue st) "-0"); [shown; exact Hminus |].
    destruct (isPending st); shown; [exact Hd |].
    apply wellFormed_app; [exact Hst |].
    destruct Hd as (_ & _ & Hdots), Hst as (_ & _ & Hshown).
    destruct d as [| c [| ? ?]]; try discriminate. simpl in Ha.
    simpl. rewrite (isDigit_not_dot c Ha). lia.
  - unfold handleDot. destruct (isPending st); shown.
    + repeat split; [discriminate | simpl; lia].
    + destruct (hasDot (displayValue st)) eqn:Hdot; shown; [exact Hst |].
      apply wellFormed_app; [exact Hst |].
      rewrite count_unsigned_dot, (hasDot_false _ Hdot). simpl. lia.
  - unfold handleBackspace.
    destruct (String.eqb_spec (sliceInit (displayValue st)) "") as [| Hleft];
      [exact wellFormed_zero |].
    destruct (String.eqb_spec (sliceInit (displayValue st)) "-") as [| Hminus];
      [exact wellFormed_zero |].
    shown. apply wellFormed_sliceInit; assumption.
  - unfold changeSign.
    destruct (isPending st && negb (Operator_eqb (operator st) Equals)).
    + shown. repeat split; [discriminate | simpl; lia].
    + pose proof (wellFormed_toggle _ Hst) as Htoggle.
      destruct (negb _); destruct (startsWith "-" (displayValue st));
        shown; exact Htoggle.
  - unfold handlePercent.
    destruct (isZero (ofString (displayValue st))); [exact Hst |].
    destruct (toFixed _ _) as [text |] eqn:Htext; [| exact Hst].
    shown. exact (toFixed_wellFormed _ _ _ Htext).
  - destruct (calculate_display op st) as [Hkept | [x Hnew]].
    + rewrite Hkept. exact Hst.
    + rewrite Hnew. apply toString_wellFormed.
  - unfold clear. destruct (negb _); exact wellFormed_zero.
  - exact wellFormed_zero.
Qed.

Lemma reachable_wellFormed (st : state) :
  reachable st -> wellFormed (displayValue st).
Proof.
  induction 1 as [| st a _ IH Ha]; [exact wellFormed_zero |].
  exact (perform_wellFormed st a Ha IH).
Qed.

Lemma reachable_run (acts : list action) :
  Forall allowed acts ->
  forall st : state, reachable st -> reachable (run acts st).
Proof.
  induction 1 as [| a acts Ha _ IH]; intros st Hst; simpl; [exact Hst |].
  apply IH, reachable_perform; assumption.
Qed.

(** Keyboard input stays within the reachable states. *)
Lemma handleInput_reachable (key : string) (st : state) :
  reachable st -> reachable (handleInput key st).
Proof.
  intro Hst. unfold handleInput.
  destruct (actionOfKey key st) as [a |] eqn:Hkey; [| exact Hst].
  apply reachable_perform; [exact Hst |].
  unfold actionOfKey in Hkey.
  destruct (isDigitKey key) eqn:Hdigit.
  - injection Hkey as <-. exact Hdigit.
  - destruct a as [d | | | | | op | |]; try exact I.
    revert Hkey.
    repeat match goal with
           | |- context [String.eqb key ?k] => destruct (String.eqb key k)
           end;
      try discriminate.
    destruct (isDirty st); try discriminate.
    destruct (operatorOfKey key); discriminate.
Qed.

(** C3, as stated, fails.  One divided by zero is reachable and shows
    Infinity, which parses to no finite number; and clearing the entry after
    5 and + shows 0 in a state that is not the reset state (an addition is
    waiting, the accumulator holds 5). *)
Lemma display_invariant_as_stated_fails :
  reachable (run divisionByZero initial)
  /\ displayValue (run divisionByZero initial) = "Infinity"
  /\ isFinite (ofString "Infinity") = false
  /\ reachable (run clearedEntry initial)
  /\ displayValue (run clearedEntry initial) = "0"
  /\ operator (run clearedEntry initial) = Plus
  /\ run clearedEntry initial <> initial
  /\ ~ (forall st : state, reachable st -> displayInvariantAsStated st).
Proof.
  assert (Hdiv : reachable (run divisionByZero initial)).
  { apply reachable_run; [| exact reachable_initial].
    repeat constructor. }
  assert (Hclear : reachable (run clearedEntry initial)).
  { apply reachable_run; [| exact reachable_initial].
    repeat constructor. }
  split; [exact Hdiv |].
  split; [vm_compute; reflexivity |].
  split; [reflexivity |].
  split; [exact Hclear |].
  split; [reflexivity |].
  split; [reflexivity |].
  split; [vm_compute; discriminate |].
  intro Hall. destruct (Hall _ Hdiv) as (_ & Hfinite & _).
  vm_compute in Hfinite. discriminate Hfinite.
Qed.

(** C3, amended. In every state reachable from the first one the display is
    not empty, carries at most one leading minus sign with some text after
    it, and holds at most one decimal point.  (It need not parse to a finite
    number, and it can be 0 outside the reset state.) *)
Theorem display_stays_well_formed (st : state) :
  reachable st ->
  displayValue st <> ""
  /\ unsigned (displayValue st) <> ""
  /\ startsWith "-" (unsigned (displayValue st)) = false
  /\ (count "." (displayValue st) <= 1)%nat.
Proof.
  intro Hst. destruct (reachable_wellFormed st Hst) as (Hne & Hsign & Hdots).
  repeat split.
  - intro Hempty. rewrite Hempty in Hne. apply Hne. reflexivity.
  - exact Hne.
  - exact Hsign.
  - rewrite <- count_unsigned_dot. exact Hdots.
Qed.

Lemma display_stays_well_formed_witness :
  displayValue (run divisionByZero initial) <> ""
  /\ unsigned (displayValue (run divisionByZero initial)) <> ""
  /\ startsWith "-" (unsigned (displayValue (run divisionByZero initial)))
     = false
  /\ (count "." (displayValue (run divisionByZero initial)) <= 1)%nat.
Proof.
  apply (display_stays_well_formed (run divisionByZero initial)).
  apply reachable_run; [| exact reachable_initial].
  repeat constructor.
Defined.

End DisplayFacts.

(** ** Operators, clearing and the percent error *)

Module PanelFacts.
Import JSString JSNumber Calculator Spec Panel CalculateFacts StringFacts
  NumberFacts.

(** X1. Escape pressed twice, or the C/AC button pressed twice, brings every
    cell back to its first value, whatever the state was. *)
Theorem escape_twice_resets (st : state) :
  handleInput "Escape" (handleInput "Escape" st) = initial
  /\ clearButton (clearButton st) = initial.
Proof.
  assert (Hkey : forall s : state, handleInput "Escape" s = clearButton s).
  { intro s. unfold handleInput, clearButton. simpl.
    destruct (isDirty s); reflexivity. }
  assert (Hclean : forall s : state, isDirty (clear s) = false).
  { intro s. unfold clear. destruct (negb _); reflexivity. }
  assert (Htwice : clearButton (clearButton st) = initial).
  { destruct (isDirty st) eqn:Hdirty.
    - replace (clearButton st) with (clear st)
        by (unfold clearButton; rewrite Hdirty; reflexivity).
      unfold clearButton. rewrite Hclean. reflexivity.
    - replace (clearButton st) with (reset st)
        by (unfold clearButton; rewrite Hdirty; reflexivity).
      reflexivity. }
  rewrite !Hkey. split; exact Htwice.
Qed.

Lemma calculate_binary_operator (op : Operator) (st : state) :
  op <> Equals ->
  calculate op st =
  if isPending st then setOperator op st else applyAndChain op st.
Proof.
  intro Hop. apply Operator_eqb_neq in Hop.
  unfold calculate, calculateAgain, pendingCalculation. rewrite Hop. simpl.
  rewrite orb_true_r.
  destruct (Operator_eqb (operator st) Equals); destruct (isPending st);
    reflexivity.
Qed.

(** X2. The last binary operator pressed wins: pressing one operator key
    and then another, neither of them [=], leaves the state that pressing
    only the second would have left. *)
Theorem last_operator_wins (first second : Operator) (st : state) :
  first <> Equals -> second <> Equals ->
  calculate second (calculate first st) = calculate second st.
Proof.
  intros Hfirst Hsecond.
  rewrite (calculate_binary_operator second (calculate first st) Hsecond).
  rewrite (calculate_binary_operator first st Hfirst).
  rewrite (calculate_binary_operator second st Hsecond).
  destruct (isPending st) eqn:Hpending.
  - simpl. rewrite Hpending. reflexivity.
  - unfold applyAndChain. destruct (value st); reflexivity.
Qed.

Lemma last_operator_wins_witness :
  calculate Times (calculate Plus (handleDigit "6" initial)) =
  calculate Times (handleDigit "6" initial).
Proof.
  apply (last_operator_wins Plus Times (handleDigit "6" initial));
    discriminate.
Defined.

(** X3. Clearing the entry keeps the calculation: with an operator waiting,
    [clear] followed by another binary operator only shows 0 and replaces the
    operator; the accumulator and the remembered operand are untouched and
    no arithmetic is done. *)
Theorem clear_keeps_calculation (op : Operator) (st : state) :
  operator st <> Equals -> op <> Equals ->
  calculate op (clear st) =
  mkState "0" false true (value st) op (previousValue st)
          (previousOperator st).
Proof.
  intros Hwaiting Hop. apply Operator_eqb_neq in Hwaiting.
  rewrite (calculate_binary_operator op (clear st) Hop).
  unfold clear. rewrite Hwaiting. reflexivity.
Qed.

Lemma clear_keeps_calculation_witness :
  calculate Minus (clear (run [Digit "5"; Calculate Plus; Digit "3"] initial))
  = mkState "0" false true (Some (ofString "5")) Minus None Equals.
Proof.
  apply (clear_keeps_calculation Minus
           (run [Digit "5"; Calculate Plus; Digit "3"] initial));
    discriminate.
Defined.

(** X4. Editing never touches the calculation in progress: digits, the
    decimal point, backspace, the sign key, percent and clear leave the
    accumulator, the operator, the previous operand and the previous operator
    as they were. *)
Theorem editing_keeps_accumulator (a : action) (st : state) :
  editsEntry a = true ->
  accumulator (perform st a) = accumulator st.
Proof.
  destruct a as [d | | | | | op | |]; try discriminate; intros _;
    simpl perform;
    unfold handleDigit, handleDot, handleBackspace, changeSign,
      handlePercent, clear;
    repeat match goal with
           | |- context [if ?b then _ else _] => destruct b
           | |- context [match toFixed ?x ?f with _ => _ end] =>
               destruct (toFixed x f)
           end;
    reflexivity.
Qed.

Lemma editing_keeps_accumulator_witness :
  accumulator (perform (run [Digit "5"; Calculate Plus] initial) ChangeSign)
  = accumulator (run [Digit "5"; Calculate Plus] initial).
Proof.
  apply (editing_keeps_accumulator ChangeSign
           (run [Digit "5"; Calculate Plus] initial)).
  reflexivity.
Defined.

Lemma toFixed_throws (x : number) (f : nat) :
  toFixed x f = None <-> (100 < f)%nat.
Proof.
  unfold toFixed. destruct (Nat.ltb_spec 100 f) as [Hbig | Hsmall].
  - tauto.
  - split; [| lia].
    destruct x as [s | s | | s m e]; try discriminate.
    destruct (_ <=? _); discriminate.
Qed.

(** X5. Percent fails in exactly one case: the display parses to a number
    other than zero and, past its integer part, holds more than 98
    characters, so that [toFixed] is asked for more than 100 digits.  In
    every other case it returns a state. *)
Theorem percent_throws_iff (st : state) :
  handlePercent st = None <->
  isZero (ofString (displayValue st)) = false
  /\ (98 < String.length (stripIntegerPart (displayValue st)))%nat.
Proof.
  unfold handlePercent.
  destruct (isZero (ofString (displayValue st))).
  - split; [discriminate | intros [H _]; discriminate H].
  - destruct (toFixed _ _) as [text |] eqn:Htext.
    + split; [discriminate |]. intros [_ Hlong].
      assert (Hnone : toFixed (div (ofString (displayValue st))
                                   (ofString "100"))
                        (String.length (stripIntegerPart (displayValue st))
                         + 2) = None) by (apply toFixed_throws; lia).
      congruence.
    + apply toFixed_throws in Htext. split; [| reflexivity].
      intros _. split; [reflexivity | lia].
Qed.

End PanelFacts.

(** ** Typing and correcting an entry *)

Module EditingFacts.
Import JSString JSNumber Calculator Spec Panel CalculateFacts StringFacts
  NumberFacts TypingFacts DisplayFacts.

Lemma hasDot_app_dot (s t : string) : hasDot (s ++ "." ++ t) = true.
Proof.
  unfold hasDot. rewrite count_app. simpl.
  destruct (count "." s + S (count "." t))%nat eqn:E; [lia | reflexivity].
Qed.

Lemma hasDot_not_zero (s : string) :
  hasDot s = true -> String.eqb s "0" = false /\ String.eqb s "-0" = false.
Proof.
  intro H. split.
  - destruct (String.eqb_spec s "0") as [-> |]; [discriminate H | reflexivity].
  - destruct (String.eqb_spec s "-0") as [-> |]; [discriminate H | reflexivity].
Qed.

(** X6. The decimal point key is idempotent, and in every reachable state
    it leaves exactly one decimal point on the display: pressing it twice is
    the same as pressing it once. *)
Theorem dot_twice_is_dot_once :
  (forall st : state, handleDot (handleDot st) = handleDot st)
  /\ (forall st : state,
         reachable st ->
         count "." (displayValue (handleDot st)) = 1%nat).
Proof.
  assert (Hdot : forall st : state, hasDot (displayValue (handleDot st)) = true).
  { intro st. unfold handleDot. destruct (isPending st); [reflexivity |].
    destruct (hasDot (displayValue st)) eqn:Hhas; simpl; [exact Hhas |].
    exact (hasDot_app_dot (displayValue st) ""). }
  assert (Hcalm : forall st : state, isPending (handleDot st) = false
                                     \/ handleDot st = st).
  { intro st. unfold handleDot. destruct (isPending st) eqn:Hp; [left; reflexivity |].
    destruct (hasDot (displayValue st)); simpl; [right; reflexivity | left; reflexivity]. }
  split.
  - intro st. destruct (Hcalm st) as [Hp | Hsame].
    + unfold handleDot at 1. rewrite Hp, (Hdot st). reflexivity.
    + rewrite Hsame. exact Hsame.
  - intros st Hst.
    assert (Hnext : reachable (perform st Dot))
      by (apply reachable_perform; [exact Hst | exact I]).
    destruct (reachable_wellFormed _ Hnext) as (_ & _ & Hmost).
    rewrite count_unsigned_dot in Hmost. simpl perform in Hmost.
    specialize (Hdot st). unfold hasDot in Hdot.
    destruct (count "." (displayValue (handleDot st))) as [| [| n]];
      [discriminate Hdot | reflexivity | lia].
Qed.

Lemma dot_twice_is_dot_once_witness :
  count "." (displayValue (handleDot (run [Digit "3"; Dot; Digit "1"] initial)))
  = 1%nat.
Proof.
  apply (proj2 dot_twice_is_dot_once (run [Digit "3"; Dot; Digit "1"] initial)).
  apply reachable_run; [| exact reachable_initial]. repeat constructor.
Defined.

Lemma run_app (first second : list action) (st : state) :
  run (first ++ second) st = run second (run first st).
Proof. unfold run. apply fold_left_app. Qed.

Lemma typed_allDigits (ds : list string) :
  Forall (fun d => isDigitKey d = true) ds -> allDigits (typed ds) = true.
Proof.
  induction 1 as [| d ds Hd _ IH]; [reflexivity |].
  destruct d as [| c [| ? ?]]; try discriminate. simpl in *.
  rewrite Hd. exact IH.
Qed.

Lemma collapseZeros_allDigits (s : string) :
  allDigits s = true -> allDigits (collapseZeros s) = true.
Proof.
  intro Hs. unfold collapseZeros.
  assert (Hdrop : allDigits (dropZeros s) = true).
  { induction s as [| a r IH]; [reflexivity |]. simpl in *.
    apply andb_prop in Hs as [Ha Hr].
    destruct (Ascii.eqb a "0"); [exact (IH Hr) |].
    simpl. rewrite Ha. exact Hr. }
  destruct (dropZeros s); [reflexivity | exact Hdrop].
Qed.

Lemma run_fraction_digits (fracs : list string) :
  Forall (fun d => isDigitKey d = true) fracs ->
  forall st : state,
    isPending st = false ->
    hasDot (displayValue st) = true ->
    displayValue (run (map Digit fracs) st) = displayValue st ++ typed fracs.
Proof.
  induction 1 as [| d ds Hd _ IH]; intros st Hpending Hdot; simpl.
  - symmetry. apply append_empty_r.
  - destruct (hasDot_not_zero _ Hdot) as [Hzero Hminus].
    assert (Hstep : displayValue (handleDigit d st) = displayValue st ++ d).
    { unfold handleDigit. rewrite Hzero, Hminus, Hpending. reflexivity. }
    rewrite IH.
    + rewrite Hstep. apply append_assoc.
    + reflexivity.
    + rewrite Hstep. unfold hasDot in *. rewrite count_app.
      destruct (count "." (displayValue st)); [discriminate Hdot | reflexivity].
Qed.

(** X7. A decimal typed from the first state is shown as typed: after the
    digits of the integer part, the decimal point and the digits of the
    fraction, the display is the integer part with its leading zeros
    collapsed, a decimal point, and the fraction digits, all of them. *)
Theorem typing_a_decimal (ints fracs : list string) :
  Forall (fun d => isDigitKey d = true) ints ->
  Forall (fun d => isDigitKey d = true) fracs ->
  displayValue (run (map Digit ints ++ Dot :: map Digit fracs) initial)
  = collapseZeros (typed ints) ++ "." ++ typed fracs.
Proof.
  intros Hints Hfracs.
  destruct (run_digits_typing ints Hints "" initial) as (Hpending & Hshown & _);
    [repeat split |].
  simpl in Hshown.
  rewrite run_app.
  change (run (Dot :: map Digit fracs) (run (map Digit ints) initial))
    with (run (map Digit fracs) (handleDot (run (map Digit ints) initial))).
  assert (Hnodot : hasDot (displayValue (run (map Digit ints) initial)) = false).
  { rewrite Hshown. unfold hasDot.
    rewrite allDigits_count_dot; [reflexivity |].
    apply collapseZeros_allDigits, typed_allDigits, Hints. }
  assert (Hdot : handleDot (run (map Digit ints) initial) =
                 setIsPending false (setIsDirty true
                   (setDisplayValue
                      (displayValue (run (map Digit ints) initial) ++ ".")
                      (run (map Digit ints) initial)))).
  { unfold handleDot. rewrite Hpending, Hnodot. reflexivity. }
  rewrite run_fraction_digits; [| exact Hfracs | |].
  - rewrite Hdot. simpl displayValue. rewrite Hshown. apply append_assoc.
  - rewrite Hdot. reflexivity.
  - rewrite Hdot. simpl displayValue.
    exact (hasDot_app_dot (displayValue (run (map Digit ints) initial)) "").
Qed.

Lemma typing_a_decimal_witness :
  displayValue
    (run (map Digit ["0"; "1"; "2"] ++ Dot :: map Digit ["5"; "0"]) initial)
  = "12.50".
Proof.
  apply (typing_a_decimal ["0"; "1"; "2"] ["5"; "0"]); repeat constructor.
Defined.

(** X8. Backspace undoes a digit: in a reachable state with nothing pending
    and a display other than -0, typing a digit and erasing it shows what was
    shown before. *)
Theorem backspace_undoes_digit (digit : string) (st : state) :
  reachable st ->
  isDigitKey digit = true ->
  isPending st = false ->
  displayValue st <> "-0" ->
  displayValue (handleBackspace (handleDigit digit st)) = displayValue st.
Proof.
  intros Hst Hdigit Hpending Hminus.
  destruct digit as [| c [| ? ?]]; try discriminate.
  destruct (reachable_wellFormed st Hst) as (Hne & _ & _).
  unfold handleDigit. rewrite Hpending.
  destruct (String.eqb_spec (displayValue st) "0") as [Hzero | Hnonzero].
  - unfold handleBackspace. simpl. rewrite Hzero. reflexivity.
  - destruct (String.eqb_spec (displayValue st) "-0") as [| _]; [contradiction |].
    unfold handleBackspace. simpl displayValue.
    rewrite sliceInit_snoc.
    destruct (String.eqb_spec (displayValue st) "") as [Hempty | _].
    { rewrite Hempty in Hne. exfalso. apply Hne. reflexivity. }
    destruct (String.eqb_spec (displayValue st) "-") as [Hsign | _].
    { rewrite Hsign in Hne. exfalso. apply Hne. reflexivity. }
    reflexivity.
Qed.

Lemma backspace_undoes_digit_witness :
  displayValue
    (handleBackspace (handleDigit "7" (run [Digit "4"; Dot] initial)))
  = displayValue (run [Digit "4"; Dot] initial).
Proof.
  apply (backspace_undoes_digit "7" (run [Digit "4"; Dot] initial)).
  - apply reachable_run; [| exact reachable_initial]. repeat constructor.
  - reflexivity.
  - reflexivity.
  - discriminate.
Defined.

(** X9. The sign key undoes itself: in a reachable state, unless an
    operator was just chosen, pressing it twice shows what was shown before
    and leaves the pending flag and the calculation as they were. *)
Theorem sign_twice_restores_display (st : state) :
  reachable st ->
  signStartsOperand st = false ->
  displayValue (changeSign (changeSign st)) = displayValue st
  /\ isPending (changeSign (changeSign st)) = isPending st
  /\ accumulator (changeSign (changeSign st)) = accumulator st.
Proof.
  intros Hst Hbranch. unfold signStartsOperand in Hbranch.
  destruct (reachable_wellFormed st Hst) as (_ & Hsign & _).
  assert (Hone : forall s : state,
             isPending s && negb (Operator_eqb (operator s) Equals) = false ->
             displayValue (changeSign s) = toggleSign (displayValue s)
             /\ isPending (changeSign s) = isPending s
             /\ accumulator (changeSign s) = accumulator s).
  { intros s Hs. unfold changeSign, toggleSign. rewrite Hs.
    repeat match goal with
           | |- context [if ?b then _ else _] => destruct b
           end;
      repeat split. }
  destruct (Hone st Hbranch) as (Hd1 & Hp1 & Ha1).
  assert (Hbranch' : isPending (changeSign st)
                     && negb (Operator_eqb (operator (changeSign st)) Equals)
                     = false).
  { rewrite Hp1. injection Ha1 as _ Hop _ _. rewrite Hop. exact Hbranch. }
  destruct (Hone (changeSign st) Hbranch') as (Hd2 & Hp2 & Ha2).
  split; [| split; congruence].
  rewrite Hd2, Hd1. unfold toggleSign, unsigned in *.
  destruct (displayValue st) as [| a r]; [reflexivity |]. simpl in *.
  destruct (Ascii.eqb_spec a "-") as [-> | Hother]; simpl.
  - rewrite Hsign. reflexivity.
  - reflexivity.
Qed.

Lemma sign_twice_restores_display_witness :
  displayValue (changeSign (changeSign (run [Digit "4"; Digit "2"] initial)))
  = displayValue (run [Digit "4"; Digit "2"] initial)
  /\ isPending (changeSign (changeSign (run [Digit "4"; Digit "2"] initial)))
     = isPending (run [Digit "4"; Digit "2"] initial)
  /\ accumulator (changeSign (changeSign (run [Digit "4"; Digit "2"] initial)))
     = accumulator (run [Digit "4"; Digit "2"] initial).
Proof.
  apply (sign_twice_restores_display (run [Digit "4"; Digit "2"] initial)).
  - apply reachable_run; [| exact reachable_initial]. repeat constructor.
  - reflexivity.
Defined.

End EditingFacts.

(** ** Invariants of the reachable states *)

Module InvariantFacts.
Import JSString JSNumber Calculator Spec Panel CalculateFacts StringFacts
  NumberFacts DisplayFacts.

Lemma toggle_showsZero (s : string) :
  String.eqb s "0" || String.eqb s "-0" = true ->
  String.eqb (toggleSign s) "0" || String.eqb (toggleSign s) "-0" = true.
Proof.
  intro H. apply orb_prop in H as [H | H]; apply String.eqb_eq in H;
    rewrite H; reflexivity.
Qed.

Lemma perform_clean_showsZero (st : state) (a : action) :
  (isDirty st = false -> showsZero st = true) ->
  isDirty (perform st a) = false -> showsZero (perform st a) = true.
Proof.
  intro IH. destruct a as [d | | | | | op | |]; simpl perform.
  - discriminate.
  - unfold handleDot. branches; solve [discriminate | exact IH].
  - unfold handleBackspace. branches; solve [discriminate | reflexivity].
  - unfold changeSign.
    destruct (isPending st && negb (Operator_eqb (operator st) Equals));
      [discriminate |].
    destruct (String.eqb (displayValue st) "0"
              || String.eqb (displayValue st) "-0") eqn:Hzero; simpl negb; cbv iota.
    + pose proof (toggle_showsZero _ Hzero) as Htoggle.
      unfold toggleSign in Htoggle. unfold showsZero.
      destruct (startsWith "-" (displayValue st)); intros _; exact Htoggle.
    + destruct (startsWith "-" (displayValue st)); discriminate.
  - unfold handlePercent. branches; solve [discriminate | exact IH].
  - unfold calculate, calculateAgain, pendingCalculation, applyAndChain.
    branches; solve [discriminate | exact IH].
  - intros _. unfold clear. branches; reflexivity.
  - reflexivity.
Qed.

(** X10. Whenever the first button reads AC, that is whenever the entry is
    not dirty, the display shows 0 or -0: in no reachable state is a number
    other than zero on the display with the button offering a full reset. *)
Theorem clean_entry_shows_zero (st : state) :
  reachable st -> isDirty st = false -> showsZero st = true.
Proof.
  induction 1 as [| st a _ IH _]; [reflexivity |].
  exact (perform_clean_showsZero st a IH).
Qed.

Lemma clean_entry_shows_zero_witness :
  showsZero (run [Digit "7"; Calculate Equals; Clear; ChangeSign] initial) = true.
Proof.
  apply (clean_entry_shows_zero
           (run [Digit "7"; Calculate Equals; Clear; ChangeSign] initial)).
  - apply reachable_run; [| exact reachable_initial]. repeat constructor.
  - reflexivity.
Defined.

Lemma calculate_consistent (op : Operator) (st : state) :
  calculationConsistent st -> calculationConsistent (calculate op st).
Proof.
  destruct st as [dv dirty pending acc waiting pv pop].
  unfold calculationConsistent, calculate, calculateAgain,
    pendingCalculation, applyAndChain. simpl.
  intros [Hacc Hprev].
  destruct waiting, op, pop, pending; simpl;
    destruct acc; simpl;
    (split;
     [ intros _; solve [ discriminate
                       | apply Hacc; left; reflexivity
                       | apply Hacc; right; discriminate ]
     | intro Hp; solve [ discriminate
                       | apply Hprev; exact Hp
                       | exfalso; apply Hp; reflexivity
                       | exfalso; apply Hacc;
                         [right; discriminate | reflexivity] ] ]).
Qed.

Lemma editing_frame (st : state) (a : action) :
  editsEntry a = true ->
  value (perform st a) = value st
  /\ operator (perform st a) = operator st
  /\ previousValue (perform st a) = previousValue st
  /\ previousOperator (perform st a) = previousOperator st
  /\ (isPending (perform st a) = true ->
      isPending st = true \/ operator st <> Equals).
Proof.
  destruct a as [d | | | | | op | |]; try discriminate; intros _;
    simpl perform;
    unfold handleDigit, handleDot, handleBackspace, changeSign,
      handlePercent, clear;
    branches; simpl; repeat split;
    try (intro Hp; solve [discriminate Hp | left; exact Hp | congruence]).
  intros _. right.
  match goal with
  | H : negb (Operator_eqb _ Equals) = true |- _ =>
      apply negb_true_iff, Operator_eqb_neq in H; exact H
  end.
Qed.

Lemma perform_consistent (st : state) (a : action) :
  calculationConsistent st -> calculationConsistent (perform st a).
Proof.
  intros Hst. destruct (editsEntry a) eqn:Hedit.
  - destruct (editing_frame st a Hedit) as (Hv & Ho & Hpv & Hpo & Hp).
    destruct Hst as [Hacc Hprev]. unfold calculationConsistent.
    rewrite Hv, Ho, Hpv, Hpo. split; [| exact Hprev].
    intros [Hpending | Hop]; apply Hacc; [exact (Hp Hpending) | right; exact Hop].
  - destruct a as [d | | | | | op | |]; try discriminate Hedit.
    + exact (calculate_consistent op st Hst).
    + split; [intros [H | H]; [discriminate H | exfalso; apply H; reflexivity]
             | intro H; exfalso; apply H; reflexivity].
Qed.

(** X11. The calculation cells stay consistent in every reachable state:
    when an operator is waiting or an entry is pending there is an
    accumulator, and when a previous operator is remembered so is its
    operand.  The null branch of [calculate] and the null guard of
    [calculateAgain] are therefore only met before the first operator key. *)
Theorem calculation_stays_consistent (st : state) :
  reachable st ->
  (isPending st = true \/ operator st <> Equals -> value st <> None)
  /\ (previousOperator st <> Equals -> previousValue st <> None).
Proof.
  induction 1 as [| st a _ IH _].
  - split; [intros [H | H]; [discriminate H | exfalso; apply H; reflexivity]
           | intro H; exfalso; apply H; reflexivity].
  - exact (perform_consistent st a IH).
Qed.

Lemma calculation_stays_consistent_witness :
  (isPending (run [Digit "2"; Calculate Times; Digit "3"] initial) = true
   \/ operator (run [Digit "2"; Calculate Times; Digit "3"] initial) <> Equals
   -> value (run [Digit "2"; Calculate Times; Digit "3"] initial) <> None)
  /\ (previousOperator (run [Digit "2"; Calculate Times; Digit "3"] initial)
      <> Equals
      -> previousValue (run [Digit "2"; Calculate Times; Digit "3"] initial)
         <> None).
Proof.
  apply (calculation_stays_consistent
           (run [Digit "2"; Calculate Times; Digit "3"] initial)).
  apply reachable_run; [| exact reachable_initial]. repeat constructor.
Defined.

(** The sign an infinite quotient takes. *)
Lemma div_by_zero (x : number) (s : bool) :
  truthy x = true ->
  exists negative : bool, div x (S754_zero s) = S754_infinity negative.
Proof.
  destruct x as [sx | sx | | sx m e]; try discriminate; intros _;
    eexists; reflexivity.
Qed.

(** X12. Division by zero is shown, not refused: when the waiting operator
    is the division, an operand has been entered and it parses to zero,
    [calculate] shows Infinity or -Infinity if the accumulator is a number
    other than zero, and NaN if the accumulator is zero or NaN (which the
    code reads as zero); the new accumulator is never finite. *)
Theorem division_by_zero_is_shown
  (nextOperator : Operator) (st : state) (accumulated : number) :
  operator st = Divide ->
  isPending st = false ->
  value st = Some accumulated ->
  isZero (ofString (displayValue st)) = true ->
  (if truthy accumulated
   then displayValue (calculate nextOperator st) = "Infinity"
        \/ displayValue (calculate nextOperator st) = "-Infinity"
   else displayValue (calculate nextOperator st) = "NaN")
  /\ exists result : number,
       value (calculate nextOperator st) = Some result
       /\ isFinite result = false.
Proof.
  intros Hop Hpending Hacc Hzero.
  assert (Hcalc : calculate nextOperator st = applyAndChain nextOperator st).
  { unfold calculate. rewrite Hop, Hpending. reflexivity. }
  rewrite Hcalc. unfold applyAndChain. rewrite Hacc, Hop. simpl.
  destruct (ofString (displayValue st)) as [s | | |]; try discriminate.
  unfold orZero. destruct (truthy accumulated) eqn:Htruthy.
  - destruct (div_by_zero accumulated s Htruthy) as [negative Hdiv].
    rewrite Hdiv. split.
    + destruct negative; [right | left]; reflexivity.
    + eexists. split; reflexivity.
  - split; [reflexivity |]. eexists. split; reflexivity.
Qed.

Lemma division_by_zero_is_shown_witness :
  (displayValue
     (calculate Equals (run [Digit "8"; Calculate Divide; Digit "0"] initial))
   = "Infinity"
   \/ displayValue
        (calculate Equals
           (run [Digit "8"; Calculate Divide; Digit "0"] initial))
      = "-Infinity")
  /\ exists result : number,
       value (calculate Equals
                (run [Digit "8"; Calculate Divide; Digit "0"] initial))
       = Some result
       /\ isFinite result = false.
Proof.
  apply (division_by_zero_is_shown Equals
           (run [Digit "8"; Calculate Divide; Digit "0"] initial)
           (ofString "8")); reflexivity.
Defined.

End InvariantFacts.

(** ** Reading a typed numeral *)

Module ParsingFacts.
Import JSString JSNumber Calculator Spec Panel StringFacts NumberFacts.

Section Rounding.
Variables precision exponentMax : Z.

Lemma shr_1_nonneg (mrs : shr_record) :
  0 <= shr_m mrs -> 0 <= shr_m (shr_1 mrs).
Proof.
  destruct mrs as [m r t]. simpl.
  destruct m as [| [p | p |] | p]; simpl; lia.
Qed.

Lemma iter_shr_1_nonneg (n : positive) (mrs : shr_record) :
  0 <= shr_m mrs -> 0 <= shr_m (iter_pos shr_1 n mrs).
Proof.
  revert mrs. induction n as [n IH | n IH |]; intros mrs H; simpl.
  - apply IH, IH, shr_1_nonneg, H.
  - apply IH, IH, H.
  - apply shr_1_nonneg, H.
Qed.

Lemma shr_fexp_nonneg (m e : Z) (l : location) :
  0 <= m -> 0 <= shr_m (fst (shr_fexp precision exponentMax m e l)).
Proof.
  intro Hm. unfold shr_fexp, shr.
  assert (H0 : 0 <= shr_m (shr_record_of_loc m l)).
  { destruct l as [| []]; exact Hm. }
  destruct (fexp precision exponentMax (Zdigits2 m + e) - e);
    simpl; auto using iter_shr_1_nonneg.
Qed.

Lemma round_nearest_even_nonneg (m : Z) (l : location) :
  0 <= m -> 0 <= round_nearest_even m l.
Proof.
  intro Hm. destruct l as [| []]; simpl; try lia.
  destruct (Z.even m); lia.
Qed.

(** Rounding a magnitude gives a zero, a finite number or an infinity of the
    sign asked for, and the sign is the only thing the sign changes. *)
Lemma binary_round_aux_signed (neg : bool) (m e : Z) (l : location) :
  0 <= m ->
  isNaN (binary_round_aux precision exponentMax neg m e l) = false
  /\ binary_round_aux precision exponentMax true m e l
     = SFopp (binary_round_aux precision exponentMax false m e l).
Proof.
  intro Hm. unfold binary_round_aux.
  pose proof (shr_fexp_nonneg m e l Hm) as H1.
  destruct (shr_fexp precision exponentMax m e l) as [mrs' e'].
  simpl in H1.
  pose proof (shr_fexp_nonneg _ e' loc_Exact
                (round_nearest_even_nonneg _ (loc_of_shr_record mrs') H1))
    as H2.
  destruct (shr_fexp precision exponentMax
              (round_nearest_even (shr_m mrs') (loc_of_shr_record mrs'))
              e' loc_Exact) as [mrs'' e''].
  simpl in H2.
  destruct (shr_m mrs'') as [| p | p]; [| | lia].
  - split; reflexivity.
  - destruct (e'' <=? exponentMax - precision); split; reflexivity.
Qed.

End Rounding.

Lemma ofDecimal_signed (neg : bool) (m e : Z) :
  isNaN (ofDecimal neg m e) = false
  /\ ofDecimal true m e = SFopp (ofDecimal false m e).
Proof.
  unfold ofDecimal. destruct m as [| p | p]; try (split; reflexivity).
  destruct (Z.leb_spec 0 e) as [Hup | Hdown].
  - unfold binary_round.
    destruct (shl_align _ _ _) as [mz ez].
    apply binary_round_aux_signed. lia.
  - unfold SFdiv_core_binary.
    set (shift := 0 - 0 - _).
    set (numer := match shift with
                  | 0 => Z.pos p
                  | Z.pos _ => Z.shiftl (Z.pos p) shift
                  | Z.neg _ => 0
                  end).
    assert (Hnumer : 0 <= numer).
    { subst numer. destruct shift; try lia. apply Z.shiftl_nonneg. lia. }
    assert (Hquot : fst (Z.div_eucl numer (10 ^ (- e)))
                    = numer / 10 ^ (- e)) by reflexivity.
    destruct (Z.div_eucl numer (10 ^ (- e))) as [q r]. simpl in Hquot.
    apply binary_round_aux_signed. rewrite Hquot.
    apply Z.div_pos; [exact Hnumer |]. apply Z.pow_pos_nonneg; lia.
Qed.

Lemma SFopp_involutive (x : number) : SFopp (SFopp x) = x.
Proof. destruct x; simpl; rewrite ?negb_involutive; reflexivity. Qed.

Lemma ofDecimal_negated (neg : bool) (m e : Z) :
  ofDecimal (negb neg) m e = SFopp (ofDecimal neg m e).
Proof.
  destruct (ofDecimal_signed neg m e) as [_ Hopp]. destruct neg; simpl.
  - rewrite Hopp, SFopp_involutive. reflexivity.
  - exact Hopp.
Qed.

Lemma isDigit_not_white (c : ascii) : isDigit c = true -> isWhite c = false.
Proof.
  destruct c as [[] [] [] [] [] [] [] []]; intro H;
    solve [reflexivity | discriminate H].
Qed.

Lemma decimalBody_char (seenDot : bool) (c : ascii) (r : string) :
  isDecimalBody seenDot (String c r) = true ->
  (isDigit c = true /\ isDecimalBody seenDot r = true)
  \/ (c = "."%char /\ seenDot = false /\ isDecimalBody true r = true).
Proof.
  simpl. destruct (isDigit c); [left; split; [reflexivity | assumption] |].
  intro H. apply andb_prop in H as [H Hr]. apply andb_prop in H as [Hc Hs].
  right. apply Ascii.eqb_eq in Hc. apply negb_true_iff in Hs.
  repeat split; assumption.
Qed.

Lemma trimEnd_step (c : ascii) (r : string) :
  trimEnd (String c r)
  = match trimEnd r with
    | EmptyString => if isWhite c then EmptyString else String c EmptyString
    | String a t => String c (String a t)
    end.
Proof. reflexivity. Qed.

Lemma decimalBody_trimEnd (seenDot : bool) (b : string) :
  isDecimalBody seenDot b = true -> trimEnd b = b.
Proof.
  revert seenDot. induction b as [| c r IH]; intros sd H; [reflexivity |].
  assert (Hc : isWhite c = false).
  { destruct (decimalBody_char _ _ _ H) as [[Hd _] | [-> _]];
      [exact (isDigit_not_white c Hd) | reflexivity]. }
  assert (Hr : trimEnd r = r).
  { destruct (decimalBody_char _ _ _ H) as [[_ Hr] | (_ & _ & Hr)];
      exact (IH _ Hr). }
  simpl. rewrite Hr, Hc. destruct r; reflexivity.
Qed.

Lemma decimalBody_seen_allDigits (b : string) :
  isDecimalBody true b = true -> allDigits b = true.
Proof.
  induction b as [| c r IH]; [reflexivity |]. intro H.
  destruct (decimalBody_char _ _ _ H) as [[Hd Hr] | (_ & Hs & _)];
    [| discriminate Hs].
  simpl. rewrite Hd. exact (IH Hr).
Qed.

Lemma spanDigits_allDigits (b : string) :
  allDigits b = true -> spanDigits b = (b, "").
Proof.
  induction b as [| c r IH]; [reflexivity |]. simpl. intro H.
  apply andb_prop in H as [Hc Hr]. rewrite Hc, (IH Hr). reflexivity.
Qed.

(** The digits before the decimal point, and what follows them. *)
Lemma spanDigits_decimalBody (b : string) :
  isDecimalBody false b = true ->
  exists ip : string,
    allDigits ip = true
    /\ (spanDigits b = (ip, "")
        \/ exists fp : string,
             allDigits fp = true /\ spanDigits b = (ip, String "." fp)).
Proof.
  induction b as [| c r IH]; intro H.
  - exists "". split; [reflexivity | left; reflexivity].
  - destruct (decimalBody_char _ _ _ H) as [[Hd Hr] | (-> & _ & Hr)].
    + destruct (IH Hr) as (ip & Hip & Hspan). exists (String c ip).
      simpl. rewrite Hd. split; [exact Hip |].
      destruct Hspan as [-> | (fp & Hfp & ->)];
        [left; reflexivity | right; exists fp; split; [exact Hfp | reflexivity]].
    + exists "". split; [reflexivity |]. right. exists r.
      split; [exact (decimalBody_seen_allDigits r Hr) | reflexivity].
Qed.

Lemma numeral_body (s : string) :
  isNumeral s = true ->
  isDecimalBody false (unsigned s) = true
  /\ exists (c : ascii) (r : string),
       unsigned s = String c r /\ isDigit c = true.
Proof.
  unfold isNumeral, isPlainDecimal. intro H.
  apply andb_prop in H as [Hbody Hfirst]. split; [exact Hbody |].
  destruct (unsigned s) as [| c r]; [discriminate Hfirst |].
  exists c, r. split; [reflexivity | exact Hfirst].
Qed.

Lemma parseUnsigned_body (c : ascii) (r : string) :
  isDigit c = true ->
  isDecimalBody false (String c r) = true ->
  exists m e : Z, parseUnsigned (String c r) = Some (m, e).
Proof.
  intros Hc Hbody.
  destruct (spanDigits_decimalBody _ Hbody) as (ip & Hip & Hspan).
  assert (Hne : exists a t, ip = String a t).
  { simpl in Hspan. rewrite Hc in Hspan.
    destruct (spanDigits r) as [d t].
    destruct Hspan as [Hs | (fp & _ & Hs)]; injection Hs as <- _;
      eexists; eexists; reflexivity. }
  destruct Hne as (a & t & ->).
  unfold parseUnsigned.
  destruct Hspan as [-> | (fp & Hfp & ->)].
  - simpl. eexists. eexists. reflexivity.
  - simpl startsWith. simpl slice1. cbv iota.
    rewrite (spanDigits_allDigits fp Hfp). simpl.
    eexists. eexists. reflexivity.
Qed.

Lemma parseNonDecimal_body (seenDot : bool) (b : string) :
  isDecimalBody seenDot b = true -> parseNonDecimal b = None.
Proof.
  destruct b as [| a [| p [| d ds]]]; try reflexivity.
  - destruct a as [[] [] [] [] [] [] [] []]; reflexivity.
  - destruct a as [[] [] [] [] [] [] [] []]; reflexivity.
  - intro H.
    destruct (decimalBody_char _ _ _ H) as [[_ Hr] | (_ & _ & Hr)];
      destruct (decimalBody_char _ _ _ Hr) as [[Hp _] | (-> & _ & _)];
      destruct a as [[] [] [] [] [] [] [] []]; try reflexivity;
      try (destruct p as [[] [] [] [] [] [] [] []];
           solve [reflexivity | discriminate Hp]).
Qed.

(** What [Number] makes of a typed numeral: the rounding of a decimal, with
    the sign the numeral carries. *)
Lemma ofString_numeral (s : string) :
  isNumeral s = true ->
  exists m e : Z,
    parseUnsigned (unsigned s) = Some (m, e)
    /\ ofString s = ofDecimal (startsWith "-" s) m e.
Proof.
  intro H. destruct (numeral_body s H) as (Hbody & c & r & Hu & Hc).
  destruct (parseUnsigned_body c r Hc) as (m & e & Hparse).
  { rewrite <- Hu. exact Hbody. }
  exists m, e. rewrite Hu. split; [exact Hparse |].
  rewrite Hu in Hbody.
  assert (Hshape : s = String c r \/ s = String "-" (String c r)).
  { unfold unsigned in Hu. destruct s as [| a t]; [discriminate Hu |].
    simpl in Hu. destruct (Ascii.eqb_spec a "-") as [-> |];
      [right | left]; congruence. }
  assert (Hinf : String.eqb (String c r) "Infinity" = false).
  { simpl. destruct (Ascii.eqb_spec c "I") as [-> |];
      [discriminate Hc | reflexivity]. }
  pose proof (isDigit_not_white c Hc) as Hwhite.
  pose proof (decimalBody_trimEnd _ _ Hbody) as Htrim.
  unfold ofString.
  destruct Hshape as [-> | ->].
  - simpl trimStart. rewrite Hwhite, Htrim.
    rewrite (parseNonDecimal_body _ _ Hbody).
    unfold parseDecimal.
    assert (Hminus : startsWith "-" (String c r) = false)
      by exact (isDigit_not_minus c Hc).
    assert (Hplus : startsWith "+" (String c r) = false).
    { simpl. destruct (Ascii.eqb_spec c "+") as [-> |];
        [discriminate Hc | reflexivity]. }
    rewrite Hminus, Hplus. simpl orb. cbv iota.
    rewrite Hinf, Hparse. reflexivity.
  - change (trimStart (String "-" (String c r)))
      with (String "-" (String c r)).
    assert (Hend : trimEnd (String "-" (String c r))
                   = String "-" (String c r)).
    { rewrite (trimEnd_step "-" (String c r)), Htrim. reflexivity. }
    rewrite Hend.
    change (parseNonDecimal (String "-" (String c r))) with (@None number).
    unfold parseDecimal. simpl startsWith. simpl orb. simpl slice1.
    cbv iota. rewrite Hinf, Hparse. reflexivity.
Qed.

End ParsingFacts.

(** ** Numerals on the display *)

Module NumeralFacts.
Import JSString JSNumber Calculator Spec Panel StringFacts NumberFacts
  DisplayFacts ParsingFacts.

Lemma decimalBody_snoc_digit (seenDot : bool) (b : string) (c : ascii) :
  isDecimalBody seenDot b = true -> isDigit c = true ->
  isDecimalBody seenDot (b ++ String c "") = true.
Proof.
  intros Hb Hc. revert seenDot Hb.
  induction b as [| a r IH]; intros sd Hb.
  - simpl. rewrite Hc. reflexivity.
  - destruct (decimalBody_char _ _ _ Hb) as [[Ha Hr] | (-> & -> & Hr)]; simpl.
    + rewrite Ha. exact (IH _ Hr).
    + exact (IH _ Hr).
Qed.

Lemma decimalBody_snoc_dot (seenDot : bool) (b : string) :
  isDecimalBody seenDot b = true -> count "." b = 0%nat ->
  isDecimalBody seenDot (b ++ ".") = negb seenDot.
Proof.
  revert seenDot. induction b as [| a r IH]; intros sd Hb Hcount.
  - simpl. destruct sd; reflexivity.
  - destruct (decimalBody_char _ _ _ Hb) as [[Ha Hr] | (-> & _ & _)].
    + simpl in *. rewrite Ha. rewrite (isDigit_not_dot a Ha) in Hcount.
      exact (IH _ Hr Hcount).
    + simpl in Hcount. discriminate Hcount.
Qed.

Lemma decimalBody_sliceInit (seenDot : bool) (b : string) :
  isDecimalBody seenDot b = true ->
  isDecimalBody seenDot (sliceInit b) = true.
Proof.
  revert seenDot. induction b as [| a r IH]; intros sd Hb; [reflexivity |].
  destruct r as [| a' r']; [reflexivity |].
  rewrite sliceInit_step by discriminate.
  destruct (decimalBody_char _ _ _ Hb) as [[Ha Hr] | (-> & -> & Hr)].
  - change (isDecimalBody sd (String a (sliceInit (String a' r'))))
      with (if isDigit a then isDecimalBody sd (sliceInit (String a' r'))
            else Ascii.eqb a "." && negb sd
                 && isDecimalBody true (sliceInit (String a' r'))).
    rewrite Ha. exact (IH _ Hr).
  - change (isDecimalBody false (String "." (sliceInit (String a' r'))))
      with (isDecimalBody true (sliceInit (String a' r'))).
    exact (IH _ Hr).
Qed.

Lemma numeral_intro (s : string) (c : ascii) (r : string) :
  unsigned s = String c r -> isDigit c = true ->
  isDecimalBody false (String c r) = true ->
  isNumeral s = true.
Proof.
  intros Hu Hc Hbody. unfold isNumeral, isPlainDecimal.
  rewrite Hu, Hbody, Hc. reflexivity.
Qed.

Lemma numeral_digitKey (d : string) :
  isDigitKey d = true ->
  isNumeral d = true /\ isNumeral ("-" ++ d) = true.
Proof.
  destruct d as [| c [| ? ?]]; try discriminate. simpl. intro Hc.
  unfold isNumeral, isPlainDecimal, unsigned. simpl.
  rewrite (isDigit_not_minus c Hc). simpl. rewrite Hc. split; reflexivity.
Qed.

Lemma numeral_app (s t : string) (c : ascii) (r : string) :
  unsigned s = String c r ->
  unsigned (s ++ t) = String c (r ++ t).
Proof.
  intro Hu. rewrite unsigned_app by (rewrite Hu; discriminate).
  rewrite Hu. reflexivity.
Qed.

Lemma numeral_snoc_digit (s : string) (c : ascii) :
  isNumeral s = true -> isDigit c = true ->
  isNumeral (s ++ String c "") = true.
Proof.
  intros Hs Hc. destruct (numeral_body s Hs) as (Hbody & a & r & Hu & Ha).
  apply (numeral_intro _ a (r ++ String c "")).
  - exact (numeral_app s _ a r Hu).
  - exact Ha.
  - rewrite Hu in Hbody.
    exact (decimalBody_snoc_digit false (String a r) c Hbody Hc).
Qed.

Lemma numeral_snoc_dot (s : string) :
  isNumeral s = true -> hasDot s = false ->
  isNumeral (s ++ ".") = true.
Proof.
  intros Hs Hdot. destruct (numeral_body s Hs) as (Hbody & a & r & Hu & Ha).
  apply (numeral_intro _ a (r ++ ".")).
  - exact (numeral_app s _ a r Hu).
  - exact Ha.
  - rewrite Hu in Hbody.
    apply (decimalBody_snoc_dot false (String a r) Hbody).
    rewrite <- Hu, count_unsigned_dot. exact (hasDot_false s Hdot).
Qed.

Lemma numeral_sliceInit (s : string) :
  isNumeral s = true ->
  sliceInit s <> "" -> sliceInit s <> "-" ->
  isNumeral (sliceInit s) = true.
Proof.
  intros Hs Hleft Hminus.
  destruct (numeral_body s Hs) as (Hbody & a & r & Hu & Ha).
  assert (Hkept : unsigned (sliceInit s) = sliceInit (unsigned s)
                  /\ sliceInit (unsigned s) <> "").
  { destruct s as [| x t]; [contradiction |].
    destruct t as [| y t']; [contradiction |].
    rewrite sliceInit_step in * by discriminate.
    unfold unsigned in *. simpl startsWith in *. simpl slice1 in *.
    destruct (Ascii.eqb_spec x "-") as [-> | Hx]; split;
      solve [reflexivity | congruence | discriminate]. }
  destruct Hkept as [Heq Hne]. rewrite Hu in Heq, Hne.
  destruct r as [| b r']; [contradiction Hne; reflexivity |].
  rewrite sliceInit_step in Heq by discriminate.
  apply (numeral_intro _ a (sliceInit (String b r')) Heq Ha).
  rewrite <- (sliceInit_step a (String b r')) by discriminate.
  apply decimalBody_sliceInit. rewrite <- Hu. exact Hbody.
Qed.

Lemma numeral_toggle (s : string) :
  isNumeral s = true ->
  isNumeral (toggleSign s) = true
  /\ unsigned (toggleSign s) = unsigned s
  /\ startsWith "-" (toggleSign s) = negb (startsWith "-" s).
Proof.
  intro Hs. destruct (numeral_body s Hs) as (Hbody & a & r & Hu & Ha).
  assert (Hsame : unsigned (toggleSign s) = unsigned s
                  /\ startsWith "-" (toggleSign s) = negb (startsWith "-" s)).
  { unfold toggleSign, unsigned in *.
    destruct (startsWith "-" s) eqn:Hsign.
    - rewrite Hu. simpl. rewrite (isDigit_not_minus a Ha). split; reflexivity.
    - split; reflexivity. }
  destruct Hsame as [Hsame Hflip]. split; [| split; assumption].
  apply (numeral_intro _ a r); [congruence | exact Ha |].
  rewrite <- Hu. exact Hbody.
Qed.

Lemma perform_numeral (st : state) (a : action) :
  allowed a -> typesNumeral a = true ->
  isNumeral (displayValue st) = true ->
  isNumeral (displayValue (perform st a)) = true.
Proof.
  intros Ha Hkey Hst.
  destruct a as [d | | | | | op | |]; try discriminate Hkey; simpl perform.
  - destruct (numeral_digitKey d Ha) as [Hd Hminus].
    unfold handleDigit.
    destruct (String.eqb (displayValue st) "0"); [exact Hd |].
    destruct (String.eqb (displayValue st) "-0"); [exact Hminus |].
    destruct (isPending st); [exact Hd |]. simpl displayValue.
    destruct d as [| c [| ? ?]]; try discriminate.
    exact (numeral_snoc_digit _ c Hst Ha).
  - unfold handleDot. destruct (isPending st); [reflexivity |].
    destruct (hasDot (displayValue st)) eqn:Hdot; [exact Hst |].
    exact (numeral_snoc_dot _ Hst Hdot).
  - unfold handleBackspace.
    destruct (String.eqb_spec (sliceInit (displayValue st)) "") as [| Hleft];
      [reflexivity |].
    destruct (String.eqb_spec (sliceInit (displayValue st)) "-") as [| Hminus];
      [reflexivity |].
    exact (numeral_sliceInit _ Hst Hleft Hminus).
  - unfold changeSign.
    destruct (isPending st && negb (Operator_eqb (operator st) Equals));
      [reflexivity |].
    destruct (numeral_toggle _ Hst) as [Htoggle _]. unfold toggleSign in Htoggle.
    destruct (negb _); destruct (startsWith "-" (displayValue st));
      exact Htoggle.
  - unfold clear. destruct (negb _); reflexivity.
  - reflexivity.
Qed.

Lemma numeral_not_nan (s : string) :
  isNumeral s = true -> isNaN (ofString s) = false.
Proof.
  intro Hs. destruct (ofString_numeral s Hs) as (m & e & _ & ->).
  apply ofDecimal_signed.
Qed.

(** X13. What is typed is a number: starting from a display that holds a
    numeral (the first state's 0, for one), any run of digit, decimal point,
    backspace, sign, clear and reset keys leaves a numeral on the display,
    and [Number] reads it as a number, never as NaN. *)
Theorem typed_entry_is_a_number (acts : list action) (st : state) :
  isNumeral (displayValue st) = true ->
  Forall allowed acts ->
  forallb typesNumeral acts = true ->
  isNumeral (displayValue (run acts st)) = true
  /\ isNaN (ofString (displayValue (run acts st))) = false.
Proof.
  intros Hst Hallowed Hkeys.
  assert (Hrun : isNumeral (displayValue (run acts st)) = true).
  { revert st Hst Hkeys.
    induction Hallowed as [| a acts Ha _ IH]; intros st Hst Hkeys; simpl in *.
    - exact Hst.
    - apply andb_prop in Hkeys as [Hkey Hrest].
      apply IH; [| exact Hrest]. exact (perform_numeral st a Ha Hkey Hst). }
  split; [exact Hrun | exact (numeral_not_nan _ Hrun)].
Qed.

Lemma typed_entry_is_a_number_witness :
  isNumeral
    (displayValue
       (run [Digit "3"; Dot; Digit "1"; ChangeSign; Backspace] initial)) = true
  /\ isNaN
       (ofString
          (displayValue
             (run [Digit "3"; Dot; Digit "1"; ChangeSign; Backspace] initial)))
     = false.
Proof.
  apply (typed_entry_is_a_number
           [Digit "3"; Dot; Digit "1"; ChangeSign; Backspace] initial).
  - reflexivity.
  - repeat constructor.
  - reflexivity.
Defined.

(** X14. The sign key negates the number on the display: when the display
    holds a numeral and no operator was just chosen, the number [Number]
    reads after [changeSign] is the opposite of the one it read before (with
    0 and -0 told apart). *)
Theorem sign_key_negates (st : state) :
  isNumeral (displayValue st) = true ->
  signStartsOperand st = false ->
  ofString (displayValue (changeSign st))
  = SFopp (ofString (displayValue st)).
Proof.
  intros Hst Hbranch. unfold signStartsOperand in Hbranch.
  assert (Hshown : displayValue (changeSign st)
                   = toggleSign (displayValue st)).
  { unfold changeSign, toggleSign. rewrite Hbranch. cbv iota.
    destruct (negb (String.eqb (displayValue st) "0"
                    || String.eqb (displayValue st) "-0"));
      destruct (startsWith "-" (displayValue st)); reflexivity. }
  rewrite Hshown.
  destruct (numeral_toggle _ Hst) as (Htoggle & Hbody & Hflip).
  destruct (ofString_numeral _ Hst) as (m & e & Hparse & ->).
  destruct (ofString_numeral _ Htoggle) as (m' & e' & Hparse' & ->).
  rewrite Hbody, Hparse in Hparse'. injection Hparse' as <- <-.
  rewrite Hflip. apply ofDecimal_negated.
Qed.

Lemma sign_key_negates_witness :
  ofString (displayValue (changeSign (run [Digit "2"; Dot; Digit "5"] initial)))
  = SFopp (ofString (displayValue (run [Digit "2"; Dot; Digit "5"] initial))).
Proof.
  apply (sign_key_negates (run [Digit "2"; Dot; Digit "5"] initial));
    reflexivity.
Defined.

End NumeralFacts.

(** ** Whole calculations *)

Module ArithmeticFacts.
Import JSString JSNumber Calculator Spec Panel CalculateFacts StringFacts
  NumberFacts TypingFacts DisplayFacts EditingFacts ParsingFacts NumeralFacts
  PanelFacts.

Lemma add_commutes (x y : number) : add x y = add y x.
Proof.
  destruct x as [sx | sx | | sx mx ex], y as [sy | sy | | sy my ey];
    try reflexivity; try (destruct sx, sy; reflexivity).
  unfold add, SFadd. rewrite (Z.min_comm ex ey). f_equal. apply Z.add_comm.
Qed.

Lemma mul_commutes (x y : number) : mul x y = mul y x.
Proof.
  destruct x as [sx | sx | | sx mx ex], y as [sy | sy | | sy my ey];
    try reflexivity; unfold mul, SFmul; rewrite (xorb_comm sx sy);
    try reflexivity.
  rewrite (Pos.mul_comm mx my), (Z.add_comm ex ey). reflexivity.
Qed.

Lemma binary_round_aux_unsigned (m e : Z) (l : location) :
  0 <= m ->
  orZero (binary_round_aux prec emax false m e l)
  = binary_round_aux prec emax false m e l.
Proof.
  intro Hm. unfold binary_round_aux.
  pose proof (shr_fexp_nonneg prec emax m e l Hm) as H1.
  destruct (shr_fexp prec emax m e l) as [mrs' e']. simpl in H1.
  pose proof (shr_fexp_nonneg prec emax _ e' loc_Exact
                (round_nearest_even_nonneg _ (loc_of_shr_record mrs') H1))
    as H2.
  destruct (shr_fexp prec emax
              (round_nearest_even (shr_m mrs') (loc_of_shr_record mrs'))
              e' loc_Exact) as [mrs'' e''].
  simpl in H2.
  destruct (shr_m mrs'') as [| p | p]; [reflexivity | | lia].
  destruct (e'' <=? emax - prec); reflexivity.
Qed.

Lemma ofDecimal_unsigned (m e : Z) :
  orZero (ofDecimal false m e) = ofDecimal false m e.
Proof.
  unfold ofDecimal. destruct m as [| p | p]; try reflexivity.
  destruct (Z.leb_spec 0 e) as [Hup | Hdown].
  - unfold binary_round. destruct (shl_align _ _ _) as [mz ez].
    apply binary_round_aux_unsigned. lia.
  - unfold SFdiv_core_binary.
    set (shift := 0 - 0 - _).
    set (numer := match shift with
                  | 0 => Z.pos p
                  | Z.pos _ => Z.shiftl (Z.pos p) shift
                  | Z.neg _ => 0
                  end).
    assert (Hnumer : 0 <= numer).
    { subst numer. destruct shift; try lia. apply Z.shiftl_nonneg. lia. }
    assert (Hquot : fst (Z.div_eucl numer (10 ^ (- e)))
                    = numer / 10 ^ (- e)) by reflexivity.
    destruct (Z.div_eucl numer (10 ^ (- e))) as [q r]. simpl in Hquot.
    apply binary_round_aux_unsigned. rewrite Hquot.
    apply Z.div_pos; [exact Hnumer |]. apply Z.pow_pos_nonneg; lia.
Qed.

Lemma collapseZeros_numeral (s : string) :
  allDigits s = true ->
  isNumeral (collapseZeros s) = true
  /\ startsWith "-" (collapseZeros s) = false.
Proof.
  intro Hs. pose proof (collapseZeros_allDigits s Hs) as Hall.
  assert (Hne : collapseZeros s <> "").
  { unfold collapseZeros. destruct (dropZeros s); discriminate. }
  pose proof (allDigits_no_minus _ Hall) as Hsign.
  split; [| exact Hsign].
  unfold isNumeral, isPlainDecimal, unsigned. rewrite Hsign.
  destruct (collapseZeros s) as [| c r]; [contradiction |].
  simpl in Hall. apply andb_prop in Hall as [Hc Hr].
  rewrite Hc, andb_true_r.
  assert (Hbody : forall t, allDigits t = true -> isDecimalBody false t = true).
  { induction t as [| a t IH]; [reflexivity |]. simpl. intro H.
    apply andb_prop in H as [Ha Ht]. rewrite Ha. exact (IH Ht). }
  apply Hbody. simpl. rewrite Hc. exact Hr.
Qed.

(** An unsigned whole number typed on the display reads as itself under
    the zero guard of the accumulator. *)
Lemma typed_operand_unsigned (s : string) :
  allDigits s = true ->
  orZero (ofString (collapseZeros s)) = ofString (collapseZeros s).
Proof.
  intro Hs. destruct (collapseZeros_numeral s Hs) as [Hnum Hsign].
  destruct (ofString_numeral _ Hnum) as (m & e & _ & ->).
  rewrite Hsign. apply ofDecimal_unsigned.
Qed.

Lemma handleDigit_accumulator (d : string) (st : state) :
  accumulator (handleDigit d st) = accumulator st.
Proof.
  unfold handleDigit.
  repeat match goal with
         | |- context [if ?b then _ else _] => destruct b
         end; reflexivity.
Qed.

Lemma run_digits_accumulator (ds : list string) (st : state) :
  accumulator (run (map Digit ds) st) = accumulator st.
Proof.
  revert st. induction ds as [| d ds IH]; intro st; [reflexivity |].
  simpl. rewrite IH. apply handleDigit_accumulator.
Qed.

(** Digits typed over a fresh or pending entry start a new operand. *)
Lemma run_digits_operand (ds : list string) (st : state) :
  ds <> [] ->
  Forall (fun d => isDigitKey d = true) ds ->
  isPending st = true \/ displayValue st = "0" ->
  startsWith "-" (displayValue st) = false ->
  typing (typed ds) (run (map Digit ds) st).
Proof.
  intros Hne Hds Hfresh Hsign.
  destruct Hds as [| d ds Hd Hrest]; [contradiction |].
  simpl map. simpl run.
  change (typed (d :: ds)) with (d ++ typed ds).
  apply (run_digits_typing ds Hrest).
  destruct d as [| c [| ? ?]]; try discriminate. simpl in Hd.
  assert (Hshown : displayValue (handleDigit (String c "") st) = String c "").
  { unfold handleDigit.
    destruct (String.eqb_spec (displayValue st) "0") as [| Hnz];
      [reflexivity |].
    destruct (String.eqb_spec (displayValue st) "-0") as [Hm | _].
    - rewrite Hm in Hsign. discriminate Hsign.
    - destruct Hfresh as [-> | Hz]; [reflexivity | contradiction]. }
  repeat split.
  - rewrite Hshown. symmetry. apply collapseZeros_digit.
  - rewrite Hshown. exact (isDigit_not_minus c Hd).
Qed.

(** Operand, operator, operand, [=]: what the display ends with. *)
Lemma binary_calculation (op : Operator) (first second : list string) :
  op <> Equals ->
  first <> [] -> second <> [] ->
  Forall (fun d => isDigitKey d = true) first ->
  Forall (fun d => isDigitKey d = true) second ->
  displayValue
    (run (map Digit first ++ Calculate op :: map Digit second
          ++ [Calculate Equals]) initial)
  = toString
      (OPERATIONS op (orZero (ofString (collapseZeros (typed first))))
                     (ofString (collapseZeros (typed second)))).
Proof.
  intros Hop Hne1 Hne2 Hfirst Hsecond.
  rewrite run_app.
  change (run (Calculate op :: map Digit second ++ [Calculate Equals])
              (run (map Digit first) initial))
    with (run (map Digit second ++ [Calculate Equals])
              (calculate op (run (map Digit first) initial))).
  rewrite run_app.
  destruct (run_digits_operand first initial Hne1 Hfirst)
    as (Hp1 & Hd1 & Hs1); [right; reflexivity | reflexivity |].
  pose proof (run_digits_accumulator first initial) as Ha1.
  remember (run (map Digit first) initial) as s1 eqn:E1. clear E1.
  destruct s1 as [dv1 dirty1 pending1 acc1 op1 pv1 pop1].
  simpl in Hp1, Hd1, Hs1. injection Ha1 as -> -> -> ->. subst pending1 dv1.
  assert (H2 : calculate op
                 (mkState (collapseZeros (typed first)) dirty1 false None
                          Equals None Equals)
               = mkState (collapseZeros (typed first)) dirty1 true
                         (Some (ofString (collapseZeros (typed first))))
                         op None Equals).
  { rewrite (calculate_binary_operator op _ Hop). reflexivity. }
  rewrite H2.
  destruct (run_digits_operand second
              (mkState (collapseZeros (typed first)) dirty1 true
                       (Some (ofString (collapseZeros (typed first))))
                       op None Equals) Hne2 Hsecond)
    as (Hp3 & Hd3 & _); [left; reflexivity | exact Hs1 |].
  pose proof (run_digits_accumulator second
                (mkState (collapseZeros (typed first)) dirty1 true
                         (Some (ofString (collapseZeros (typed first))))
                         op None Equals)) as Ha3.
  remember (run (map Digit second) _) as s3 eqn:E3. clear E3.
  destruct s3 as [dv3 dirty3 pending3 acc3 op3 pv3 pop3].
  simpl in Hp3, Hd3. injection Ha3 as -> -> -> ->. subst pending3 dv3.
  apply Operator_eqb_neq in Hop.
  change (run [Calculate Equals] ?s) with (calculate Equals s).
  unfold calculate, applyAndChain. simpl. rewrite Hop. reflexivity.
Qed.

(** X15. A whole calculation: typing a whole number, a binary operator,
    a second whole number and [=] from the first state shows the operator of
    [OPERATIONS] applied to the two numbers as [Number] reads them, printed
    by [String]; leading zeros typed on either operand do not matter, and
    the zero guard on the accumulator changes nothing. *)
Theorem binary_calculation_shows_result
  (op : Operator) (first second : list string) :
  op <> Equals ->
  first <> [] -> second <> [] ->
  Forall (fun d => isDigitKey d = true) first ->
  Forall (fun d => isDigitKey d = true) second ->
  displayValue
    (run (map Digit first ++ Calculate op :: map Digit second
          ++ [Calculate Equals]) initial)
  = toString (OPERATIONS op (ofString (collapseZeros (typed first)))
                            (ofString (collapseZeros (typed second)))).
Proof.
  intros Hop Hne1 Hne2 Hfirst Hsecond.
  rewrite (binary_calculation op first second) by assumption.
  rewrite typed_operand_unsigned by exact (typed_allDigits first Hfirst).
  reflexivity.
Qed.

Lemma binary_calculation_shows_result_witness :
  displayValue
    (run (map Digit ["0"; "4"; "2"] ++ Calculate Times :: map Digit ["1"; "0"]
          ++ [Calculate Equals]) initial)
  = toString (OPERATIONS Times (ofString (collapseZeros (typed ["0"; "4"; "2"])))
                               (ofString (collapseZeros (typed ["1"; "0"])))).
Proof.
  apply (binary_calculation_shows_result Times ["0"; "4"; "2"] ["1"; "0"]);
    solve [discriminate | repeat constructor].
Defined.

(** X16. Sums and products do not depend on the order of the operands:
    a + b = and b + a = show the same text, and so do a * b = and b * a =,
    for all whole numbers typed, however large. *)
Theorem sum_and_product_commute
  (op : Operator) (first second : list string) :
  op = Plus \/ op = Times ->
  first <> [] -> second <> [] ->
  Forall (fun d => isDigitKey d = true) first ->
  Forall (fun d => isDigitKey d = true) second ->
  displayValue
    (run (map Digit first ++ Calculate op :: map Digit second
          ++ [Calculate Equals]) initial)
  = displayValue
      (run (map Digit second ++ Calculate op :: map Digit first
            ++ [Calculate Equals]) initial).
Proof.
  intros Hop Hne1 Hne2 Hfirst Hsecond.
  assert (Hbinary : op <> Equals) by (destruct Hop; subst; discriminate).
  rewrite (binary_calculation op first second) by assumption.
  rewrite (binary_calculation op second first) by assumption.
  rewrite !typed_operand_unsigned by (apply typed_allDigits; assumption).
  destruct Hop as [-> | ->]; simpl.
  - rewrite add_commutes. reflexivity.
  - rewrite mul_commutes. reflexivity.
Qed.

Lemma sum_and_product_commute_witness :
  displayValue
    (run (map Digit ["7"] ++ Calculate Plus :: map Digit ["3"; "5"]
          ++ [Calculate Equals]) initial)
  = displayValue
      (run (map Digit ["3"; "5"] ++ Calculate Plus :: map Digit ["7"]
            ++ [Calculate Equals]) initial).
Proof.
  apply (sum_and_product_commute Plus ["7"] ["3"; "5"]);
    solve [left; reflexivity | discriminate | repeat constructor].
Defined.

End ArithmeticFacts.

(** ** The rendered panel and the earlier variant *)

Module VariantFacts.
Import JSString JSNumber Calculator Spec Panel Events StringFacts
  NumberFacts DisplayFacts.

(** X17. Whatever keys are pressed and buttons clicked on the rendered
    panel, with the digit buttons it renders, the component only passes
    through reachable states: the key filter, the C/AC switch and the button
    wiring add nothing to what the handlers, called freely, can reach. *)
Theorem panel_events_stay_reachable (events : list event) (st : state) :
  reachable st ->
  Forall rendered events ->
  reachable (fold_left handle events st).
Proof.
  intros Hst Hevents. revert st Hst.
  induction Hevents as [| e events He _ IH]; intros st Hst; [exact Hst |].
  simpl. apply IH.
  destruct e as [key | | | | op | digit |]; simpl handle.
  - exact (handleInput_reachable key st Hst).
  - unfold clearButton.
    destruct (isDirty st);
      [exact (reachable_perform st Clear Hst I)
      | exact (reachable_perform st Reset Hst I)].
  - exact (reachable_perform st ChangeSign Hst I).
  - exact (reachable_perform st Percent Hst I).
  - exact (reachable_perform st (Calculate op) Hst I).
  - exact (reachable_perform st (Digit digit) Hst He).
  - exact (reachable_perform st Dot Hst I).
Qed.

Lemma panel_events_stay_reachable_witness :
  reachable
    (fold_left handle
       [KeyDown "7"; OperationButton Divide; DigitButton "0"; KeyDown "Enter";
        SignButton; ClearButton] initial).
Proof.
  apply (panel_events_stay_reachable
           [KeyDown "7"; OperationButton Divide; DigitButton "0";
            KeyDown "Enter"; SignButton; ClearButton] initial).
  - exact reachable_initial.
  - repeat constructor.
Defined.

Lemma entering_digit (digit : string) (old : Legacy.state) (new : state) :
  Legacy.entering old new ->
  Legacy.entering (Legacy.handleDigit digit old) (handleDigit digit new).
Proof.
  intro H. Legacy.entering_step old new H.
  unfold Legacy.entering, Legacy.handleDigit, handleDigit. simpl.
  rewrite orb_false_r.
  destruct (String.eqb dv "0"); [repeat split |].
  destruct (String.eqb dv "-0"); repeat split.
Qed.

Lemma entering_dot (old : Legacy.state) (new : state) :
  Legacy.entering old new ->
  Legacy.entering (Legacy.handleDot old) (handleDot new).
Proof.
  intro H. Legacy.entering_step old new H.
  unfold Legacy.entering, Legacy.handleDot, handleDot. simpl.
  destruct (negb (hasDot dv)); repeat split.
Qed.

Lemma entering_backspace (old : Legacy.state) (new : state) :
  Legacy.entering old new ->
  Legacy.entering (Legacy.handleBackspace old) (handleBackspace new).
Proof.
  intro H. Legacy.entering_step old new H.
  unfold Legacy.entering, Legacy.handleBackspace, handleBackspace. simpl.
  destruct (String.eqb (sliceInit dv) "" || String.eqb (sliceInit dv) "-");
    repeat split.
Qed.

Lemma entering_sign (old : Legacy.state) (new : state) :
  Legacy.entering old new ->
  Legacy.entering (Legacy.changeSign old) (changeSign new).
Proof.
  intro H. Legacy.entering_step old new H.
  unfold Legacy.entering, Legacy.changeSign, changeSign. simpl.
  destruct (startsWith "-" dv);
    destruct (negb (String.eqb dv "0" || String.eqb dv "-0"));
    repeat split.
Qed.

Lemma entering_percent (old : Legacy.state) (new : state) :
  Legacy.entering old new ->
  Legacy.entering (Legacy.percent old) (perform new Percent).
Proof.
  intro H. Legacy.entering_step old new H.
  unfold Legacy.entering, Legacy.percent, Legacy.handlePercent, perform,
    handlePercent. simpl.
  destruct (isZero (ofString dv)); [repeat split |].
  destruct (toFixed _ _); repeat split.
Qed.

Lemma entering_clear (old : Legacy.state) (new : state) :
  Legacy.entering old new ->
  Legacy.entering
    (if Legacy.shouldClear old then Legacy.clear old else Legacy.reset old)
    (clearButton new).
Proof.
  intro H. Legacy.entering_step old new H.
  unfold Legacy.entering, Legacy.shouldClear, Legacy.clear, Legacy.reset,
    clearButton, clear, reset. simpl.
  destruct (negb (String.eqb dv "0" || String.eqb dv "-0"));
    destruct dirty; repeat split.
Qed.

Lemma entering_event (e : event) (old : Legacy.state) (new : state) :
  entersOnly e = true ->
  Legacy.entering old new ->
  Legacy.entering (Legacy.handle old e) (handle new e).
Proof.
  intros He H.
  destruct e as [key | | | | op | digit |];
    [ | exact (entering_clear old new H)
      | exact (entering_sign old new H)
      | exact (entering_percent old new H)
      | discriminate He
      | exact (entering_digit digit old new H)
      | exact (entering_dot old new H) ].
  simpl in He. apply andb_prop in He as [Henter Hop].
  simpl handle. simpl Legacy.handle.
  apply negb_true_iff in Henter.
  unfold Legacy.handleInput, handleInput, actionOfKey.
  destruct (isDigitKey key); [exact (entering_digit key old new H) |].
  destruct (String.eqb key "."); [exact (entering_dot old new H) |].
  destruct (String.eqb key "Backspace");
    [exact (entering_backspace old new H) |].
  destruct (String.eqb key "Escape").
  { pose proof (entering_clear old new H) as Hclear.
    unfold clearButton in Hclear.
    destruct (isDirty new); exact Hclear. }
  rewrite Henter.
  destruct (String.eqb key "%"); [exact (entering_percent old new H) |].
  destruct (operatorOfKey key); [discriminate Hop | exact H].
Qed.

(** X18. The two variants of the component show the same text while a
    number is entered: from their first states, after the same keys and
    clicks, as long as none of them is an operator or Enter, the earlier
    variant's [current] equals the later variant's [displayValue]. *)
Theorem variants_agree_on_entry (events : list event) :
  forallb entersOnly events = true ->
  Legacy.current (fold_left Legacy.handle events Legacy.initial)
  = displayValue (fold_left handle events initial).
Proof.
  intro Hevents.
  assert (Hrun : forall (old : Legacy.state) (new : state),
             Legacy.entering old new ->
             Legacy.entering (fold_left Legacy.handle events old)
                             (fold_left handle events new)).
  { induction events as [| e events IH]; intros old new H; [exact H |].
    simpl in Hevents. apply andb_prop in Hevents as [He Hrest].
    simpl. apply (IH Hrest). exact (entering_event e old new He H). }
  destruct (Hrun Legacy.initial initial) as [Hshown _];
    [repeat split | exact Hshown].
Qed.

Lemma variants_agree_on_entry_witness :
  Legacy.current
    (fold_left Legacy.handle
       [KeyDown "4"; DotButton; DigitButton "2"; SignButton; PercentButton;
        KeyDown "Backspace"; KeyDown "Escape"] Legacy.initial)
  = displayValue
      (fold_left handle
         [KeyDown "4"; DotButton; DigitButton "2"; SignButton; PercentButton;
          KeyDown "Backspace"; KeyDown "Escape"] initial).
Proof.
  apply (variants_agree_on_entry
           [KeyDown "4"; DotButton; DigitButton "2"; SignButton;
            PercentButton; KeyDown "Backspace"; KeyDown "Escape"]).
  reflexivity.
Defined.

Lemma unsigned_is_not_minus_zero (s : string) :
  startsWith "-" s = false -> String.eqb s "-0" = false.
Proof.
  intro H. destruct (String.eqb_spec s "-0") as [-> |];
    [discriminate H | reflexivity].
Qed.

Lemma alike_digit (digit : string) (old : Legacy.state) (new : state) :
  isDigitKey digit = true ->
  Legacy.alike old new ->
  startsWith "-" (displayValue new) = false ->
  Legacy.alike (Legacy.handleDigit digit old) (handleDigit digit new)
  /\ startsWith "-" (displayValue (handleDigit digit new)) = false
  /\ accumulator (handleDigit digit new) = accumulator new.
Proof.
  intros Hd (Hc & Hp & Hv & Ho) Hsign.
  destruct digit as [| c [| ? ?]]; try discriminate. simpl in Hd.
  pose proof (isDigit_not_minus c Hd) as Hminus.
  destruct old as [cur pending acc op lv lop].
  destruct new as [dv dirty pending' acc' op' pv pop].
  simpl in Hc, Hp, Hv, Ho, Hsign. subst cur pending acc op.
  unfold Legacy.alike, Legacy.handleDigit, handleDigit, accumulator. simpl.
  rewrite (unsigned_is_not_minus_zero dv Hsign).
  destruct (String.eqb dv "0"); simpl; [repeat split; exact Hminus |].
  destruct pending'; simpl; repeat split; try exact Hminus.
  destruct dv; [exact Hminus | exact Hsign].
Qed.

Lemma alike_digits (ds : list string) :
  Forall (fun d => isDigitKey d = true) ds ->
  forall (old : Legacy.state) (new : state),
    Legacy.alike old new ->
    startsWith "-" (displayValue new) = false ->
    Legacy.alike (fold_left Legacy.handle (map DigitButton ds) old)
                 (fold_left handle (map DigitButton ds) new)
    /\ startsWith "-"
         (displayValue (fold_left handle (map DigitButton ds) new)) = false
    /\ accumulator (fold_left handle (map DigitButton ds) new)
       = accumulator new.
Proof.
  induction 1 as [| d ds Hd _ IH]; intros old new Halike Hsign.
  - split; [exact Halike | split; [exact Hsign | reflexivity]].
  - destruct (alike_digit d old new Hd Halike Hsign) as (Ha & Hs & Hacc).
    destruct (IH _ _ Ha Hs) as (Ha' & Hs' & Hacc').
    simpl. split; [exact Ha' | split; [exact Hs' | congruence]].
Qed.

Lemma alike_calculate (op : Operator) (old : Legacy.state) (new : state) :
  Legacy.alike old new ->
  op <> Equals \/ operator new <> Equals ->
  Legacy.alike (Legacy.calculate op old) (calculate op new).
Proof.
  intros (Hc & Hp & Hv & Ho) Hbinary.
  destruct old as [cur pending acc waiting lv lop].
  destruct new as [dv dirty pending' acc' waiting' pv pop].
  simpl in Hc, Hp, Hv, Ho, Hbinary. subst cur pending acc waiting.
  unfold Legacy.alike, Legacy.calculate, Legacy.calculateAgain,
    Legacy.pendingCalculation, calculate, calculateAgain,
    pendingCalculation, applyAndChain.
  destruct waiting', op;
    try (exfalso; destruct Hbinary as [H | H]; apply H; reflexivity);
    simpl; rewrite ?orb_true_r;
    destruct pending'; simpl; destruct acc'; repeat split.
Qed.

Lemma calculate_keeps_first_entry (op : Operator) (st : state) :
  op <> Equals -> value st = None ->
  displayValue (calculate op st) = displayValue st
  /\ operator (calculate op st) = op.
Proof.
  intros Hop Hv. apply CalculateFacts.Operator_eqb_neq in Hop.
  unfold calculate, calculateAgain, pendingCalculation, applyAndChain.
  rewrite Hop, Hv. simpl. rewrite orb_true_r.
  destruct (Operator_eqb (operator st) Equals); destruct (isPending st);
    split; reflexivity.
Qed.

Lemma fold_calculation (S : Type) (h : S -> event -> S)
  (first second : list string) (op : Operator) (st : S) :
  fold_left h
    (map DigitButton first ++ OperationButton op
       :: map DigitButton second ++ [OperationButton Equals]) st
  = h (fold_left h (map DigitButton second)
         (h (fold_left h (map DigitButton first) st) (OperationButton op)))
      (OperationButton Equals).
Proof.
  rewrite fold_left_app. simpl. rewrite fold_left_app. reflexivity.
Qed.

(** X19. The two variants of the component compute alike: after a whole
    number, a binary operator, a second whole number and [=], clicked from
    their first states, the earlier variant's [current] equals the later
    variant's [displayValue], whatever the digits and the operator. *)
Theorem variants_agree_on_calculation
  (op : Operator) (first second : list string) :
  op <> Equals ->
  Forall (fun d => isDigitKey d = true) first ->
  Forall (fun d => isDigitKey d = true) second ->
  Legacy.current
    (fold_left Legacy.handle
       (map DigitButton first ++ OperationButton op
          :: map DigitButton second ++ [OperationButton Equals])
       Legacy.initial)
  = displayValue
      (fold_left handle
         (map DigitButton first ++ OperationButton op
            :: map DigitButton second ++ [OperationButton Equals])
         initial).
Proof.
  intros Hop Hfirst Hsecond.
  rewrite !fold_calculation.
  change (Legacy.handle ?s (OperationButton ?o)) with (Legacy.calculate o s).
  change (handle ?s (OperationButton ?o)) with (calculate o s).
  destruct (alike_digits first Hfirst Legacy.initial initial)
    as (H1 & Hs1 & Hacc1); [repeat split | reflexivity |].
  set (old1 := fold_left Legacy.handle (map DigitButton first) Legacy.initial)
    in *.
  set (new1 := fold_left handle (map DigitButton first) initial) in *.
  assert (Hnone : value new1 = None) by (injection Hacc1; auto).
  destruct (calculate_keeps_first_entry op new1 Hop Hnone) as [Hd2 Ho2].
  pose proof (alike_calculate op old1 new1 H1 (or_introl Hop)) as H2.
  destruct (alike_digits second Hsecond _ _ H2) as (H3 & _ & Hacc3);
    [rewrite Hd2; exact Hs1 |].
  apply (alike_calculate Equals) in H3.
  - destruct H3 as [Hshown _]. exact Hshown.
  - right. injection Hacc3 as _ Ho3 _ _. rewrite Ho3, Ho2. exact Hop.
Qed.

Lemma variants_agree_on_calculation_witness :
  Legacy.current
    (fold_left Legacy.handle
       (map DigitButton ["9"; "6"] ++ OperationButton Divide
          :: map DigitButton ["8"] ++ [OperationButton Equals])
       Legacy.initial)
  = displayValue
      (fold_left handle
         (map DigitButton ["9"; "6"] ++ OperationButton Divide
            :: map DigitButton ["8"] ++ [OperationButton Equals])
         initial).
Proof.
  apply (variants_agree_on_calculation Divide ["9"; "6"] ["8"]);
    solve [discriminate | repeat constructor].
Defined.

End VariantFacts.

(** ** Editing a result *)

Module ResultFacts.
Import JSString JSNumber Calculator Spec Panel.

(** X20. Backspace does not end the pending state: it never changes the
    pending flag, so after a result or an operator a backspace followed by a
    digit shows that digit alone (after a minus sign when what backspace left
    is -0), not the shortened text with the digit appended. *)
Theorem backspace_keeps_pending (digit : string) (st : state) :
  isPending (handleBackspace st) = isPending st
  /\ (isPending st = true ->
      displayValue (handleDigit digit (handleBackspace st))
      = if String.eqb (sliceInit (displayValue st)) "-0"
        then "-" ++ digit
        else digit).
Proof.
  assert (Hflag : isPending (handleBackspace st) = isPending st).
  { unfold handleBackspace. destruct (_ || _); reflexivity. }
  split; [exact Hflag |]. intro Hpending.
  unfold handleDigit. rewrite Hflag, Hpending.
  unfold handleBackspace.
  destruct (String.eqb_spec (sliceInit (displayValue st)) "") as [-> | _];
    [reflexivity |].
  destruct (String.eqb_spec (sliceInit (displayValue st)) "-") as [-> | _];
    [reflexivity |].
  simpl.
  destruct (String.eqb_spec (sliceInit (displayValue st)) "0") as [-> | _];
    [reflexivity |].
  destruct (String.eqb (sliceInit (displayValue st)) "-0"); reflexivity.
Qed.

Lemma backspace_keeps_pending_witness :
  displayValue
    (handleDigit "7"
       (handleBackspace
          (run [Digit "1"; Digit "2"; Calculate Plus; Digit "3";
                Calculate Equals] initial)))
  = "7".
Proof.
  apply (proj2 (backspace_keeps_pending "7"
                  (run [Digit "1"; Digit "2"; Calculate Plus; Digit "3";
                        Calculate Equals] initial))).
  reflexivity.
Defined.

End ResultFacts.
